(** * Session registry and command dispatch of the browser MCP server

    A shallow embedding of [src/browser_manager.py] (class [BrowserManager]
    and [PaymentRequiredError]), of the data classes of [src/models.py] it
    uses, and of the payment branch of the [spawn_browser] tool of
    [src/server.py], followed by the properties of the registry, of the
    dispatcher and of the price normalisation.

    Conventions of the embedding.
    - Python values that travel as JSON are values of [json]; a Python
      [float] is idealised as a rational (rounding, infinities and NaN are
      not represented), and the result of a float division is kept
      reduced; an integer too large for a float makes [float()] and [/]
      raise [OverflowError], as in Python.
    - A coroutine is a computation in the monad [M]: it threads the
      manager and the objects it mutates, the log of network calls and the
      number of clock readings, and ends by returning or by raising.
      Coroutines are run one at a time; interleavings are not represented.
    - The remote service, the process environment, the system clock and
      the builtin [float()] on strings are parameters of the development. *)

From Stdlib Require Import ZArith QArith Ascii String DecimalString List.
From stdpp Require Import base option list strings.

Close Scope Q_scope.
Open Scope string_scope.
Open Scope list_scope.
Open Scope Z_scope.

(** ** JSON values *)

#[local] Set Warnings "-register-all".

Inductive json : Type :=
| JNull
| JBool (b : bool)
| JInt (n : Z)
| JFloat (x : Q)
| JStr (s : string)
| JList (l : list json)
| JDict (d : list (string * json)).

(** A JSON object, that is a Python [dict] with string keys, in insertion
    order. *)
Abbreviation dict := (list (string * json)).

(** Python truthiness, as used by [if x], [not x] and [x or y]. *)
Definition Qis_zero (x : Q) : bool := (Qnum x =? 0).

Definition truthy (v : json) : bool :=
  match v with
  | JNull => false
  | JBool b => b
  | JInt n => negb (n =? 0)
  | JFloat x => negb (Qis_zero x)
  | JStr s => negb (String.eqb s "")
  | JList l => match l with [] => false | _ => true end
  | JDict d => match d with [] => false | _ => true end
  end.

(** [a or b] *)
Definition py_or (a b : json) : json := if truthy a then a else b.

(** Truthiness of an [Optional[str]] and of an [Optional[int]]. *)
Definition truthy_str (o : option string) : bool :=
  match o with Some s => negb (String.eqb s "") | None => false end.

Definition truthy_int (o : option Z) : bool :=
  match o with Some n => negb (n =? 0) | None => false end.

Definition json_of_opt_str (o : option string) : json :=
  match o with Some s => JStr s | None => JNull end.

(** ** Dictionaries

    A Python [dict] keeps its entries in insertion order: assigning to a
    key that is present replaces the value in place, assigning to a new
    key appends, deleting removes the entry. *)

Section Dict.
Context {K V : Type} `{EqDecision K}.

Fixpoint dict_get (k : K) (d : list (K * V)) : option V :=
  match d with
  | [] => None
  | (k', v) :: d' => if decide (k' = k) then Some v else dict_get k d'
  end.

Fixpoint dict_set (k : K) (v : V) (d : list (K * V)) : list (K * V) :=
  match d with
  | [] => [(k, v)]
  | (k', v') :: d' =>
      if decide (k' = k) then (k', v) :: d' else (k', v') :: dict_set k v d'
  end.

Definition dict_del (k : K) (d : list (K * V)) : list (K * V) :=
  filter (λ e, e.1 ≠ k) d.

(** [d.update(e)] *)
Definition dict_update (d e : list (K * V)) : list (K * V) :=
  fold_left (λ acc kv, dict_set kv.1 kv.2 acc) e d.

(** [list(d.keys())] *)
Definition dict_keys (d : list (K * V)) : list K := d.*1.

(** [d.get(k, dflt)] *)
Definition dict_get_or (k : K) (dflt : V) (d : list (K * V)) : V :=
  default dflt (dict_get k d).
End Dict.

(** [d.get(k)]: [None] when the key is absent. *)
Definition json_get (k : string) (d : dict) : json := dict_get_or k JNull d.

(** ** Strings built by f-strings

    [str()] of [None], of a [bool], of an [int] and of a [str] is computed;
    the rendering of a float or of a container is kept as a [Repr] piece,
    and a float formatted with [:.nf] as a [Fixed n] piece. Adjacent
    literal pieces are merged, so that a string that can be computed is a
    single [Lit]. *)

Definition string_of_Z (n : Z) : string := NilZero.string_of_int (Z.to_int n).

Inductive piece : Type :=
| Lit (s : string)
| Repr (v : json)
| Fixed (places : nat) (x : Q).

Definition pystr := list piece.

Definition str_json (v : json) : piece :=
  match v with
  | JNull => Lit "None"
  | JBool true => Lit "True"
  | JBool false => Lit "False"
  | JInt n => Lit (string_of_Z n)
  | JStr s => Lit s
  | _ => Repr v
  end.

Fixpoint fstring (ps : list piece) : pystr :=
  match ps with
  | [] => []
  | Lit s :: ps' =>
      match fstring ps' with
      | Lit t :: r => Lit (s +:+ t) :: r
      | r => Lit s :: r
      end
  | p :: ps' => p :: fstring ps'
  end.

(** ** Numbers: [isinstance], comparison, division and [float()] *)

Definition Q_of_Z (n : Z) : Q := inject_Z n.

(** [isinstance(v, (int, float))]; [bool] is a subclass of [int]. *)
Definition isinstance_int_float (v : json) : bool :=
  match v with
  | JBool _ | JInt _ | JFloat _ => true
  | _ => false
  end.

Definition isinstance_dict (v : json) : bool :=
  match v with JDict _ => true | _ => false end.

(** The numeric value of an [int], [bool] or [float]. *)
Definition num_value (v : json) : option Q :=
  match v with
  | JBool b => Some (Q_of_Z (Z.b2z b))
  | JInt n => Some (Q_of_Z n)
  | JFloat x => Some x
  | _ => None
  end.

Definition Qgtb (x y : Q) : bool := negb (Qle_bool x y).

(** [x / y] on numbers, as a float. *)
Definition true_div (x y : Q) : Q := Qred (x / y).

(** The integers and the quotients of integers that have no float: those
    of magnitude [2**1024 - 2**970] or more, which round to [2**1024].
    [float(n)] and [n / m] raise [OverflowError] on them. *)
Definition float_limit : Z := 2 ^ 1024 - 2 ^ 970.

Definition float_overflow (x : Q) : bool :=
  Qle_bool (Q_of_Z float_limit) x || Qle_bool x (Q_of_Z (- float_limit)).

Arguments float_overflow : simpl never.

(** ** Data classes ([src/models.py]) *)

Inductive BrowserState : Type := STARTING | READY | NAVIGATING | ERROR | CLOSED.

(** [BrowserInstance]. The fields [instance_id], [current_url] and [title]
    are annotated [str] or [Optional[str]], but assignment is not validated
    and the manager stores in them whatever the remote answer holds, hence
    [json]. Timestamps are readings of the clock. *)
Record BrowserInstance : Type := {
  instance_id : json;
  state : BrowserState;
  current_url : json;
  title : json;
  created_at : Z;
  last_activity : Z;
  headless : bool;
  user_agent : option string;
  viewport : list (string * Z)
}.

(** [BrowserOptions]; [options_user_agent] is its field [user_agent]. *)
Record BrowserOptions : Type := {
  country : option string;
  duration_minutes : option Z;
  profile_id : option string;
  payment_signature : option string;
  options_user_agent : option string;
  viewport_width : Z;
  viewport_height : Z
}.

(** ** Exceptions *)

(** [PaymentRequiredError] keeps its [payment_info] and its message;
    [Exception arg] is [Exception(arg)]; [ExceptionStr prefix e] is
    [Exception(f"{prefix}{str(e)}")], the rendering of [e] being kept as
    [e] itself. The other constructors are the interpreter's and the HTTP
    client's errors, all of them subclasses of [Exception]. *)
Inductive exn : Type :=
| PaymentRequiredError (payment_info : dict) (message : pystr)
| Exception (arg : json)
| ExceptionStr (prefix : string) (cause : exn)
| TypeError
| ValueError
| AttributeError
| KeyError
| OverflowError
| ClientError (detail : string)
| ContentTypeError.

(** [except PaymentRequiredError] *)
Definition is_PaymentRequiredError (e : exn) : bool :=
  match e with PaymentRequiredError _ _ => true | _ => false end.

Inductive result (A : Type) : Type :=
| Return (a : A)
| Raise (e : exn).
Arguments Return {A} a.
Arguments Raise {A} e.

#[global] Instance result_ret : MRet result := λ A a, Return a.
#[global] Instance result_bind : MBind result :=
  λ A B f r, match r with Return a => f a | Raise e => Raise e end.

(** Running a list of computations in order, stopping at the first error. *)
Fixpoint result_map {A B : Type} (f : A → result B) (l : list A) : result (list B) :=
  match l with
  | [] => Return []
  | a :: l' => b ← f a; bs ← result_map f l'; Return (b :: bs)
  end.

(** ** The registry, the HTTP client and the state of a run *)

(** Keys of [self._instances]: the hashable values a remote answer can put
    in [session_id]. Numbers that compare equal are one key. *)
Inductive key : Type :=
| KNone
| KStr (s : string)
| KNum (x : Q).

#[global] Instance Q_eq_dec : EqDecision Q.
Proof. solve_decision. Defined.

#[global] Instance key_eq_dec : EqDecision key.
Proof. solve_decision. Defined.

(** The key a value hashes to; lists and dicts are unhashable. *)
Definition hash_key (v : json) : option key :=
  match v with
  | JNull => Some KNone
  | JBool b => Some (KNum (Q_of_Z (Z.b2z b)))
  | JInt n => Some (KNum (Q_of_Z n))
  | JFloat x => Some (KNum (Qred x))
  | JStr s => Some (KStr s)
  | JList _ | JDict _ => None
  end.

(** A value of [self._instances]: a [dict] with the entries ["instance"]
    (a reference to the [BrowserInstance] object), ["session_id"],
    ["session_token"], and further JSON-valued entries kept in [fields]. *)
Record session : Type := {
  instance : nat;
  session_id : json;
  session_token : json;
  fields : dict
}.

Inductive http_method : Type := GET | POST | DELETE.

Record request : Type := {
  method : http_method;
  url : pystr;
  json_body : option dict;
  headers : list (string * pystr)
}.

(** What the remote service does with a request: the call raises, or an
    answer arrives with a status and a body; [body = None] is a body that
    [resp.json()] rejects. Answers are JSON objects, as the annotations
    [payment_info: dict] and [-> Dict[str, Any]] have it: a body that
    decodes to another JSON value, such as the empty body of a 204, which
    [resp.json()] gives as [None], is not represented. *)
Inductive reply : Type :=
| Fails (detail : string)
| Responds (status : Z) (body : option dict).

Record response : Type := { status : Z; body : option dict }.

(** [self._http]: [None], an open session or a closed one. *)
Inductive client : Type := NoSession | OpenSession | ClosedSession.

Record world : Type := {
  _instances : list (key * session);
  _http : client;
  objects : list BrowserInstance;
  sent : list request;
  clock_reads : nat
}.

Definition with_instances (f : list (key * session) → list (key * session)) (w : world) : world :=
  {| _instances := f (_instances w); _http := _http w; objects := objects w;
     sent := sent w; clock_reads := clock_reads w |}.

Definition with_http (c : client) (w : world) : world :=
  {| _instances := _instances w; _http := c; objects := objects w;
     sent := sent w; clock_reads := clock_reads w |}.

Definition with_objects (f : list BrowserInstance → list BrowserInstance) (w : world) : world :=
  {| _instances := _instances w; _http := _http w; objects := f (objects w);
     sent := sent w; clock_reads := clock_reads w |}.

Definition with_sent (r : request) (w : world) : world :=
  {| _instances := _instances w; _http := _http w; objects := objects w;
     sent := sent w ++ [r]; clock_reads := clock_reads w |}.

Definition with_tick (w : world) : world :=
  {| _instances := _instances w; _http := _http w; objects := objects w;
     sent := sent w; clock_reads := S (clock_reads w) |}.

(** [BrowserManager.__init__] *)
Definition init_world : world :=
  {| _instances := []; _http := NoSession; objects := []; sent := [];
     clock_reads := 0 |}.

(** ** The monad of coroutines *)

Definition M (A : Type) : Type := world → result A * world.

#[global] Instance M_ret : MRet M := λ A a w, (Return a, w).
#[global] Instance M_bind : MBind M :=
  λ A B f m w, match m w with
               | (Return a, w') => f a w'
               | (Raise e, w') => (Raise e, w')
               end.

Definition raise {A : Type} (e : exn) : M A := λ w, (Raise e, w).

Definition lift {A : Type} (r : result A) : M A := λ w, (r, w).

(** [try: m except Exception as e: h e] *)
Definition try_except {A : Type} (m : M A) (h : exn → M A) : M A :=
  λ w, match m w with
       | (Return a, w') => (Return a, w')
       | (Raise e, w') => h e w'
       end.

Definition get_instances : M (list (key * session)) := λ w, (Return (_instances w), w).

Definition modify_instances (f : list (key * session) → list (key * session)) : M unit :=
  λ w, (Return tt, with_instances f w).

(** [BrowserInstance(...)]: a new object, named by its position. *)
Definition new_object (o : BrowserInstance) : M nat :=
  λ w, (Return (length (objects w)), with_objects (λ os, os ++ [o]) w).

(** Attribute assignment on an object. *)
Definition modify_object (l : nat) (f : BrowserInstance → BrowserInstance) : M unit :=
  λ w, (Return tt, with_objects (alter f l) w).

Definition set_instance_id (v : json) (o : BrowserInstance) : BrowserInstance :=
  {| instance_id := v; state := state o; current_url := current_url o;
     title := title o; created_at := created_at o; last_activity := last_activity o;
     headless := headless o; user_agent := user_agent o; viewport := viewport o |}.

Definition set_state (s : BrowserState) (o : BrowserInstance) : BrowserInstance :=
  {| instance_id := instance_id o; state := s; current_url := current_url o;
     title := title o; created_at := created_at o; last_activity := last_activity o;
     headless := headless o; user_agent := user_agent o; viewport := viewport o |}.

Definition set_current_url (v : json) (o : BrowserInstance) : BrowserInstance :=
  {| instance_id := instance_id o; state := state o; current_url := v;
     title := title o; created_at := created_at o; last_activity := last_activity o;
     headless := headless o; user_agent := user_agent o; viewport := viewport o |}.

Definition set_title (v : json) (o : BrowserInstance) : BrowserInstance :=
  {| instance_id := instance_id o; state := state o; current_url := current_url o;
     title := v; created_at := created_at o; last_activity := last_activity o;
     headless := headless o; user_agent := user_agent o; viewport := viewport o |}.

Definition set_last_activity (t : Z) (o : BrowserInstance) : BrowserInstance :=
  {| instance_id := instance_id o; state := state o; current_url := current_url o;
     title := title o; created_at := created_at o; last_activity := t;
     headless := headless o; user_agent := user_agent o; viewport := viewport o |}.

(** [resp.json()] *)
Definition resp_json (r : response) : M dict :=
  match body r with
  | Some d => mret d
  | None => raise ContentTypeError
  end.

Fixpoint for_each {A : Type} (l : list A) (f : A → M unit) : M unit :=
  match l with
  | [] => mret tt
  | a :: l' => f a;; for_each l' f
  end.

(** ** Builtins on JSON values *)

(** [v.get(k, dflt)]; only a [dict] has the method. *)
Definition py_get (v : json) (k : string) (dflt : json) : result json :=
  match v with
  | JDict d => Return (dict_get_or k dflt d)
  | _ => Raise AttributeError
  end.

(** [for n in v]: a list yields its items, a string its characters, a
    dict its keys; nothing else is iterable. *)
Definition py_iter (v : json) : result (list json) :=
  match v with
  | JList l => Return l
  | JStr s => Return ((λ c, JStr (String c EmptyString)) <$> list_ascii_of_string s)
  | JDict d => Return (JStr <$> d.*1)
  | _ => Raise TypeError
  end.

(** [v > n] and [v / n] for an integer literal [n] other than 0. *)
Definition py_gt (v : json) (n : Z) : result bool :=
  match num_value v with
  | Some x => Return (Qgtb x (Q_of_Z n))
  | None => Raise TypeError
  end.

(** [m / n] on integers: the quotient as a float, when it has one. *)
Definition int_truediv (m n : Z) : result Q :=
  let q := true_div (Q_of_Z m) (Q_of_Z n) in
  if float_overflow q then Raise OverflowError else Return q.

Arguments int_truediv : simpl never.

Definition py_truediv (v : json) (n : Z) : result Q :=
  match v with
  | JBool b => int_truediv (Z.b2z b) n
  | JInt m => int_truediv m n
  | JFloat x => Return (true_div x (Q_of_Z n))
  | _ => Raise TypeError
  end.

(** [sep.join(parts)] on pieces. *)
Fixpoint join_pieces (sep : string) (parts : list (list piece)) : list piece :=
  match parts with
  | [] => []
  | [p] => p
  | p :: ps => p ++ Lit sep :: join_pieces sep ps
  end.


(** ** Sample runs

    A reading of [float()] for plain decimal literals (an optional sign,
    digits, at most one point), a process environment without variables, a
    clock that counts its readings, scripted remote services, and a few
    options and payloads. They serve as concrete inputs. *)

Definition digit_of (c : ascii) : option Z :=
  let n := Z.of_nat (nat_of_ascii c) in
  if (48 <=? n) && (n <=? 57) then Some (n - 48) else None.

Fixpoint decimal_digits (s : string) (dot : bool) (num : Z) (den : positive)
    (seen : bool) : option Q :=
  match s with
  | EmptyString => if seen then Some (Qred (num # den)) else None
  | String c s' =>
      if Ascii.eqb c "."%char then
        if dot then None else decimal_digits s' true num den seen
      else
        match digit_of c with
        | Some d =>
            decimal_digits s' dot (num * 10 + d)
              (if dot then (den * 10)%positive else den) true
        | None => None
        end
  end.

Definition decimal_of_string (s : string) : option Q :=
  match s with
  | String "-" s' => Qopp <$> decimal_digits s' false 0 1 false
  | String "+" s' => decimal_digits s' false 0 1 false
  | _ => decimal_digits s false 0 1 false
  end.

(** A reading of [int()] for plain integer literals: an optional sign and
    digits. *)
Fixpoint integer_digits (s : string) (acc : Z) (seen : bool) : option Z :=
  match s with
  | EmptyString => if seen then Some acc else None
  | String c s' =>
      match digit_of c with
      | Some d => integer_digits s' (acc * 10 + d) true
      | None => None
      end
  end.

Definition integer_of_string (s : string) : option Z :=
  match s with
  | String "-" s' => Z.opp <$> integer_digits s' 0 false
  | String "+" s' => integer_digits s' 0 false
  | _ => integer_digits s 0 false
  end.

(** A reading of [round(x, n)] for [n] that is not negative: the nearest
    multiple of [10 ** -n], the even one of two that are as near. *)
Definition round_half_even (x : Q) (n : Z) : Q :=
  let scale := 10 ^ n in
  let num := Qnum x * scale in
  let den := Z.pos (Qden x) in
  let q := num / den in
  let r := num mod den in
  let up := if 2 * r <? den then false
            else if den <? 2 * r then true else Z.odd q in
  Qred (Qdiv (inject_Z (if up then q + 1 else q)) (inject_Z scale)).

Definition no_environ : string → option string := λ _, None.

Definition counting_clock : nat → Z := Z.of_nat.

(** The service answers the n-th request with the n-th scripted reply,
    and with [last] once the script is exhausted. *)
Definition scripted (script : list reply) (last : reply) : list request → request → reply :=
  λ log _, nth (length log) script last.

(** [BrowserOptions()] *)
Definition default_options : BrowserOptions :=
  {| country := None; duration_minutes := Some 60; profile_id := None;
     payment_signature := None; options_user_agent := None;
     viewport_width := 1920; viewport_height := 1080 |}.

Definition us_options : BrowserOptions :=
  {| country := Some "US"; duration_minutes := Some 30; profile_id := None;
     payment_signature := None; options_user_agent := None;
     viewport_width := 1920; viewport_height := 1080 |}.

Definition payment_payload : dict :=
  [("price", JInt 1500000);
   ("networks", JList [JDict [("network", JStr "base"); ("address", JStr "0xabc")]])].

Definition null_price_payload : dict := [("price", JNull)].

Definition dollar_price_payload : dict := [("price", JStr "$0.30")].

Definition error_payload : dict := [("error", JStr "session expired")].

Definition created_payload : dict :=
  [("session_id", JStr "s1"); ("proxy", JDict [("country", JStr "US")])].

Definition null_token_payload : dict :=
  [("session_id", JStr "s1"); ("session_token", JNull)].

Definition page_payload : dict :=
  [("url", JStr "https://example.com/"); ("title", JStr "Example Domain")].

Definition ok_payload : dict := [("ok", JBool true)].

(** Services: the first reply answers the creation request, the second
    every later request. *)
Definition created_service : list request → request → reply :=
  scripted [Responds 201 (Some created_payload)] (Responds 200 (Some page_payload)).

Definition payment_service : list request → request → reply :=
  scripted [Responds 402 (Some payment_payload)] (Responds 200 (Some ok_payload)).

Definition null_price_service : list request → request → reply :=
  scripted [Responds 402 (Some null_price_payload)] (Responds 200 (Some ok_payload)).

Definition dollar_price_service : list request → request → reply :=
  scripted [Responds 402 (Some dollar_price_payload)] (Responds 200 (Some ok_payload)).

Definition expiring_service : list request → request → reply :=
  scripted [Responds 201 (Some created_payload)] (Responds 410 (Some error_payload)).

Definition accepted_service : list request → request → reply :=
  scripted [Responds 202 (Some created_payload)] (Responds 200 (Some ok_payload)).

Definition null_token_service : list request → request → reply :=
  scripted [Responds 200 (Some null_token_payload)] (Responds 200 (Some ok_payload)).

Definition dropping_service : list request → request → reply :=
  scripted [Responds 201 (Some created_payload)] (Fails "connection reset").

(** The command request a dispatch to the sentinel record issues. *)
Definition sentinel_request : request :=
  {| method := POST;
     url := [Lit "https://browser.proxies.sx/v1/sessions/None/command"];
     json_body := Some [("action", JStr "navigate"); ("url", JStr "https://example.com")];
     headers := [("Content-Type", [Lit "application/json"]);
                 ("Authorization", [Lit "Bearer None"])] |}.

(** The record and the state a creation answered with [created_payload]
    leaves in a new manager. *)
Definition created_record : session :=
  {| instance := 0; session_id := JStr "s1"; session_token := JStr "s1";
     fields := [("expires_at", JNull);
                ("proxy", JDict [("country", JStr "US")]);
                ("fingerprint", JDict []);
                ("loaded_profile_id", JNull)] |}.

Definition created_world : world :=
  {| _instances := [(KStr "s1", created_record)];
     _http := OpenSession;
     objects :=
       [{| instance_id := JStr "s1"; state := READY; current_url := JNull;
           title := JNull; created_at := 0; last_activity := 1;
           headless := true; user_agent := None;
           viewport := [("width", 1920); ("height", 1080)] |}];
     sent :=
       [{| method := POST;
           url := [Lit "https://browser.proxies.sx/v1/sessions"];
           json_body := Some [("country", JStr "US"); ("durationMinutes", JInt 30)];
           headers := [("Content-Type", [Lit "application/json"])] |}];
     clock_reads := 2 |}.
(** ** The manager ([src/browser_manager.py]) *)

Section BrowserManager.
(** [os.environ] *)
Variable environ : string → option string.
(** The remote service: its reply to a request, given the requests
    issued before it. *)
Variable remote : list request → request → reply.
(** [datetime.now()]: the n-th reading of the clock. *)
Variable now : nat → Z.
(** [float(s)] on a string; [None] is [ValueError]. *)
Variable float_of_str : string → option Q.
(** [int(s)] on a string; [None] is [ValueError]. *)
Variable int_of_str : string → option Z.
(** [round(x, n)] on a float. *)
Variable py_round : Q → Z → Q.

Definition API_BASE : string :=
  default "https://browser.proxies.sx" (environ "BROWSER_API_URL").

Definition datetime_now : M Z :=
  λ w, (Return (now (clock_reads w)), with_tick w).

(** One network call: it is logged, then the service replies. *)
Definition http_request (r : request) : M response :=
  λ w, match remote (sent w) r with
       | Fails d => (Raise (ClientError d), with_sent r w)
       | Responds st b => (Return {| status := st; body := b |}, with_sent r w)
       end.

Definition _get_http : M unit :=
  λ w, match _http w with
       | OpenSession => (Return tt, w)
       | NoSession | ClosedSession => (Return tt, with_http OpenSession w)
       end.

(** [float(v)] *)
Definition py_float (v : json) : result Q :=
  match v with
  | JBool b => Return (Q_of_Z (Z.b2z b))
  | JInt n =>
      if float_overflow (Q_of_Z n) then Raise OverflowError else Return (Q_of_Z n)
  | JFloat x => Return x
  | JStr s =>
      match float_of_str s with
      | Some x => Return x
      | None => Raise ValueError
      end
  | JNull | JList _ | JDict _ => Raise TypeError
  end.

(** *** [PaymentRequiredError.__init__] *)

(** The price computation of [__init__] (lines 380 to 386). *)
Definition PaymentRequiredError_price_usd (payment_info : dict) : result Q :=
  let price := dict_get_or "price" (JInt 0) payment_info in
  big ← (if isinstance_int_float price then py_gt price 1000 else Return false);
  if big : bool then py_truediv price 1000000
  else if isinstance_dict price then
    amount ← py_get price "amount" (JInt 0); py_float amount
  else py_float price.

(** [f"{n.get('network')}: {n.get('address')}"] *)
Definition network_line (n : json) : result (list piece) :=
  network ← py_get n "network" JNull;
  address ← py_get n "address" JNull;
  Return [str_json network; Lit ": "; str_json address].

Definition PaymentRequiredError_init (payment_info : dict) : result exn :=
  let networks := dict_get_or "networks" (JList []) payment_info in
  ns ← py_iter networks;
  lines ← result_map network_line ns;
  let addrs := join_pieces ", " lines in
  price_usd ← PaymentRequiredError_price_usd payment_info;
  Return (PaymentRequiredError payment_info
            (fstring ([Lit "Payment required: $"; Fixed 3 price_usd;
                       Lit " USDC. Send to: "] ++ addrs))).

(** *** [spawn_browser] *)

Definition creation_body (options : BrowserOptions) : dict :=
  let body : dict := [] in
  let body :=
    if truthy_str (country options)
    then dict_set "country" (json_of_opt_str (country options)) body
    else body in
  let body :=
    match duration_minutes options with
    | Some d =>
        if negb (d =? 0) then dict_set "durationMinutes" (JInt d) body
        else dict_set "durationMinutes" (JInt 60) body
    | None => dict_set "durationMinutes" (JInt 60) body
    end in
  let body :=
    if truthy_str (profile_id options)
    then dict_set "profile_id" (json_of_opt_str (profile_id options)) body
    else body in
  body.

Definition creation_headers (options : BrowserOptions) : list (string * pystr) :=
  let headers : list (string * pystr) := [("Content-Type", [Lit "application/json"])] in
  let payment_sig :=
    if truthy_str (payment_signature options) then payment_signature options
    else environ "PAYMENT_SIGNATURE" in
  let headers :=
    match payment_sig with
    | Some sig =>
        if truthy_str payment_sig then dict_set "Payment-Signature" [Lit sig] headers
        else headers
    | None => headers
    end in
  let internal_key := environ "BROWSER_INTERNAL_KEY" in
  let headers :=
    match internal_key with
    | Some k =>
        if truthy_str internal_key then dict_set "X-Internal-Key" [Lit k] headers
        else headers
    | None => headers
    end in
  headers.

Definition creation_request (options : BrowserOptions) : request :=
  {| method := POST;
     url := fstring [Lit API_BASE; Lit "/v1/sessions"];
     json_body := Some (creation_body options);
     headers := creation_headers options |}.

(** The record stored for a created session (lines 97 to 105). *)
Definition created_session (instance : nat) (session_id session_token : json)
    (data : dict) : session :=
  {| instance := instance;
     session_id := session_id;
     session_token := session_token;
     fields :=
       [("expires_at", py_or (json_get "expires_at" data) (json_get "expiresAt" data));
        ("proxy", dict_get_or "proxy" (JDict []) data);
        ("fingerprint", dict_get_or "fingerprint" (JDict []) data);
        ("loaded_profile_id", json_get "loaded_profile_id" data)] |}.

(** The record stored under ["payment_required"] (lines 79 to 84). *)
Definition payment_session (instance : nat) (data : dict) : session :=
  {| instance := instance;
     session_id := JNull;
     session_token := JNull;
     fields := [("payment_info", JDict data)] |}.

(** [self._instances[k] = v]; an unhashable key is a [TypeError]. *)
Definition set_instance (k : json) (v : session) : M unit :=
  match hash_key k with
  | Some k' => modify_instances (dict_set k' v)
  | None => raise TypeError
  end.

(** [BrowserInstance(instance_id="pending", headless=True, ...)] (lines
    42 to 47); the two timestamps are the defaults of [created_at] and
    [last_activity]. *)
Definition pending_instance (options : BrowserOptions) (created active : Z)
    : BrowserInstance :=
  {| instance_id := JStr "pending"; state := STARTING;
     current_url := JNull; title := JNull;
     created_at := created; last_activity := active;
     headless := true; user_agent := options_user_agent options;
     viewport := [("width", viewport_width options);
                  ("height", viewport_height options)] |}.

(** The result is the reference to the [BrowserInstance] object. *)
Definition spawn_browser (options : BrowserOptions) : M nat :=
  created ← datetime_now;
  active ← datetime_now;
  instance ← new_object (pending_instance options created active);
  try_except
    (_get_http;;
     resp ← http_request (creation_request options);
     data ← resp_json resp;
     if status resp =? 402 then
       modify_object instance (set_state ERROR);;
       modify_object instance (set_instance_id (JStr "payment_required"));;
       set_instance (JStr "payment_required") (payment_session instance data);;
       e ← lift (PaymentRequiredError_init data);
       raise e
     else if negb ((status resp =? 200) || (status resp =? 201)) then
       raise (Exception
                (dict_get_or "error"
                   (JStr ("API error " +:+ string_of_Z (status resp))) data))
     else
       let session_id := json_get "session_id" data in
       let session_token := dict_get_or "session_token" session_id data in
       modify_object instance (set_instance_id session_id);;
       modify_object instance (set_state READY);;
       set_instance session_id
         (created_session instance session_id session_token data);;
       mret instance)
    (λ e, if is_PaymentRequiredError e then raise e
          else
            modify_object instance (set_state ERROR);;
            raise (ExceptionStr "Failed to create browser session: " e)).

(** *** [send_command] and [navigate]

    A stored record is a non-empty [dict], so [if not session] is the
    test for an absent key. The lock only brackets the accesses to
    [self._instances]. *)

Definition command_body (action : string) (params : option dict) : dict :=
  let body : dict := [("action", JStr action)] in
  match params with
  | Some p => if truthy (JDict p) then dict_update body p else body
  | None => body
  end.

Definition command_request (s : session) (action : string)
    (params : option dict) : request :=
  let sid := session_id s in
  let token := session_token s in
  {| method := POST;
     url := fstring [Lit API_BASE; Lit "/v1/sessions/"; str_json sid; Lit "/command"];
     json_body := Some (command_body action params);
     headers := [("Content-Type", [Lit "application/json"]);
                 ("Authorization", fstring [Lit "Bearer "; str_json token])] |}.

Definition send_command (instance_id : string) (action : string)
    (params : option dict) : M dict :=
  instances ← get_instances;
  match dict_get (KStr instance_id) instances with
  | None => raise (Exception (JStr ("No browser instance: " +:+ instance_id)))
  | Some session =>
      _get_http;;
      resp ← http_request (command_request session action params);
      data ← resp_json resp;
      if negb (status resp =? 200) then
        raise (Exception
                 (dict_get_or "error"
                    (JStr ("Command failed: " +:+ string_of_Z (status resp))) data))
      else mret data
  end.

Definition navigate (instance_id url wait_until : string) : M dict :=
  result ← send_command instance_id "navigate"
             (Some [("url", JStr url); ("wait_until", JStr wait_until)]);
  instances ← get_instances;
  match dict_get (KStr instance_id) instances with
  | Some session =>
      modify_object (instance session)
        (set_current_url (dict_get_or "url" (JStr url) result));;
      modify_object (instance session)
        (set_title (dict_get_or "title" (JStr "") result));;
      modify_object (instance session) (set_state READY);;
      t ← datetime_now;
      modify_object (instance session) (set_last_activity t)
  | None => mret tt
  end;;
  mret result.

(** *** Session management *)

(** [get_session_data]; it is called with [instance.instance_id]. *)
Definition get_session_data (instance_id : json) : M (option session) :=
  instances ← get_instances;
  match hash_key instance_id with
  | Some k => mret (dict_get k instances)
  | None => raise TypeError
  end.

(** [del self._instances[k]]; an absent key is a [KeyError]. *)
Definition del_instance (k : key) : M unit :=
  instances ← get_instances;
  match dict_get k instances with
  | Some _ => modify_instances (dict_del k)
  | None => raise KeyError
  end.

Definition close_request (s : session) : request :=
  let sid := session_id s in
  let token := session_token s in
  {| method := DELETE;
     url := fstring [Lit API_BASE; Lit "/v1/sessions/"; str_json sid];
     json_body := None;
     headers := [("Authorization", fstring [Lit "Bearer "; str_json token])] |}.

(** [close_all] hands every key of the registry to [close_browser], so
    its argument is a key. *)
Definition close_browser (instance_id : key) : M bool :=
  instances ← get_instances;
  match dict_get instance_id instances with
  | None => mret false
  | Some session =>
      try_except
        (_get_http;;
         resp ← http_request (close_request session);
         del_instance instance_id;;
         mret true)
        (λ _,
           instances ← get_instances;
           (if bool_decide (is_Some (dict_get instance_id instances))
            then modify_instances (dict_del instance_id)
            else mret tt);;
           mret true)
  end.

Definition close_all : M unit :=
  instances ← get_instances;
  let ids := dict_keys instances in
  for_each ids (λ iid, try_except (close_browser iid;; mret tt) (λ _, mret tt)).

(** ** The payment branch of the [spawn_browser] tool ([src/server.py])

    The price computation of the [except PaymentRequiredError] handler
    (lines 161 to 168), on [e.payment_info]. *)
Definition tool_price_usd (pi : dict) : result Q :=
  let price := dict_get_or "price" (JInt 0) pi in
  big ← (if isinstance_int_float price then py_gt price 1000 else Return false);
  if big : bool then py_truediv price 1000000
  else if isinstance_dict price then
    amount ← py_get price "amount" (JInt 0); py_float amount
  else py_float price.


(** ** The other operations of the manager ([src/browser_manager.py])

    The operations below fix the action and the parameters of a command
    (lines 157 to 198). Python's default arguments ([human_like=True],
    [full_page=False], [selector="body"], [timeout=10000], [x=0],
    [y=0]) are given by the caller here. *)

Definition click (instance_id selector : string) : M dict :=
  send_command instance_id "click" (Some [("selector", JStr selector)]).

Definition type_text (instance_id selector text : string) (human_like : bool) : M dict :=
  let action := if human_like then "type_slow" else "type" in
  send_command instance_id action
    (Some [("selector", JStr selector); ("text", JStr text)]).

Definition screenshot (instance_id : string) (full_page : bool) : M dict :=
  send_command instance_id "screenshot" (Some [("full_page", JBool full_page)]).

Definition get_content (instance_id : string) : M dict :=
  send_command instance_id "content" None.

Definition get_text (instance_id selector : string) : M dict :=
  send_command instance_id "text" (Some [("selector", JStr selector)]).

Definition execute_script (instance_id script : string) : M dict :=
  send_command instance_id "evaluate" (Some [("script", JStr script)]).

Definition get_cookies (instance_id : string) : M dict :=
  send_command instance_id "cookies" None.

Definition set_cookie (instance_id : string) (cookie : dict) : M dict :=
  send_command instance_id "set_cookie" (Some [("cookie", JDict cookie)]).

Definition clear_cookies (instance_id : string) : M dict :=
  send_command instance_id "clear_cookies" None.

Definition get_local_storage (instance_id : string) : M dict :=
  send_command instance_id "local_storage" None.

Definition set_local_storage (instance_id : string) (items : dict) : M dict :=
  send_command instance_id "set_local_storage" (Some [("items", JDict items)]).

Definition wait_for_element (instance_id selector : string) (timeout : Z) : M dict :=
  send_command instance_id "wait"
    (Some [("selector", JStr selector); ("timeout", JInt timeout)]).

Definition press_key (instance_id key : string) : M dict :=
  send_command instance_id "press" (Some [("key", JStr key)]).

Definition scroll (instance_id : string) (x y : Z) : M dict :=
  send_command instance_id "scroll" (Some [("x", JInt x); ("y", JInt y)]).

(** *** Identity bundles (lines 202 to 281) *)

Definition bearer (token : json) : pystr := fstring [Lit "Bearer "; str_json token].

Definition save_profile_request (s : session) (name : option string) : request :=
  let sid := session_id s in
  let token := session_token s in
  let body : dict := if truthy_str name then [("name", json_of_opt_str name)] else [] in
  {| method := POST;
     url := fstring [Lit API_BASE; Lit "/v1/sessions/"; str_json sid; Lit "/profile"];
     json_body := Some body;
     headers := [("Content-Type", [Lit "application/json"]);
                 ("Authorization", bearer token)] |}.

Definition save_profile (instance_id : string) (name : option string) : M dict :=
  instances ← get_instances;
  match dict_get (KStr instance_id) instances with
  | None => raise (Exception (JStr ("No browser instance: " +:+ instance_id)))
  | Some session =>
      _get_http;;
      resp ← http_request (save_profile_request session name);
      data ← resp_json resp;
      if negb (status resp =? 200) then
        raise (Exception
                 (dict_get_or "error"
                    (JStr ("Save profile failed: " +:+ string_of_Z (status resp))) data))
      else mret data
  end.

Definition load_profile_request (s : session) (profile_id : string) : request :=
  let sid := session_id s in
  let token := session_token s in
  {| method := POST;
     url := fstring [Lit API_BASE; Lit "/v1/sessions/"; str_json sid; Lit "/profile/load"];
     json_body := Some [("profile_id", JStr profile_id)];
     headers := [("Content-Type", [Lit "application/json"]);
                 ("Authorization", bearer token)] |}.

Definition load_profile (instance_id profile_id : string) : M dict :=
  instances ← get_instances;
  match dict_get (KStr instance_id) instances with
  | None => raise (Exception (JStr ("No browser instance: " +:+ instance_id)))
  | Some session =>
      _get_http;;
      resp ← http_request (load_profile_request session profile_id);
      data ← resp_json resp;
      if negb (status resp =? 200) then
        raise (Exception
                 (dict_get_or "error"
                    (JStr ("Load profile failed: " +:+ string_of_Z (status resp))) data))
      else mret data
  end.

Definition list_profiles_request (s : session) : request :=
  let token := session_token s in
  {| method := GET;
     url := fstring [Lit API_BASE; Lit "/v1/profiles"];
     json_body := None;
     headers := [("Authorization", bearer token)] |}.

Definition list_profiles (instance_id : string) : M dict :=
  instances ← get_instances;
  match dict_get (KStr instance_id) instances with
  | None => raise (Exception (JStr ("No browser instance: " +:+ instance_id)))
  | Some session =>
      _get_http;;
      resp ← http_request (list_profiles_request session);
      data ← resp_json resp;
      if negb (status resp =? 200) then
        raise (Exception
                 (dict_get_or "error"
                    (JStr ("List profiles failed: " +:+ string_of_Z (status resp))) data))
      else mret data
  end.

Definition delete_profile_request (s : session) (profile_id : string) : request :=
  let token := session_token s in
  {| method := DELETE;
     url := fstring [Lit API_BASE; Lit "/v1/profiles/"; Lit profile_id];
     json_body := None;
     headers := [("Authorization", bearer token)] |}.

(** The profile comes first, the instance second. *)
Definition delete_profile (profile_id instance_id : string) : M dict :=
  instances ← get_instances;
  match dict_get (KStr instance_id) instances with
  | None => raise (Exception (JStr ("No browser instance: " +:+ instance_id)))
  | Some session =>
      _get_http;;
      resp ← http_request (delete_profile_request session profile_id);
      data ← resp_json resp;
      if negb (status resp =? 200) then
        raise (Exception
                 (dict_get_or "error"
                    (JStr ("Delete profile failed: " +:+ string_of_Z (status resp))) data))
      else mret data
  end.

(** *** Reading the registry (lines 285 to 290 and 343 to 349) *)

Definition get_instance (instance_id : string) : M (option nat) :=
  instances ← get_instances;
  mret (instance <$> dict_get (KStr instance_id) instances).

(** Every record holds an instance, and an instance is truthy. *)
Definition list_instances : M (list nat) :=
  instances ← get_instances;
  mret (instance <$> instances.*2).

Definition close_http : M unit :=
  λ w, match _http w with
       | OpenSession => (Return tt, with_http ClosedSession w)
       | NoSession | ClosedSession => (Return tt, w)
       end.

Definition cleanup : M unit :=
  close_all;;
  close_http.

(** [APITab.evaluate] and [APITab.get] (lines 359 to 364). *)
Definition APITab_evaluate (instance_id script : string) : M json :=
  result ← execute_script instance_id script;
  mret (json_get "result" result).

Definition APITab_get (instance_id url : string) : M dict :=
  navigate instance_id url "domcontentloaded".

(** ** The tools ([src/server.py])

    A tool is named [tool_f] when the manager has an operation [f]. The
    module-level [browser_manager] is the manager of the state. *)

(** An argument annotated [int] that the tools also accept as a string:
    [if isinstance(n, str): n = int(n)]. *)
Inductive int_arg : Type :=
| IntArg (n : Z)
| StrArg (s : string).

Definition py_int (a : int_arg) : result Z :=
  match a with
  | IntArg n => Return n
  | StrArg s =>
      match int_of_str s with
      | Some n => Return n
      | None => Raise ValueError
      end
  end.

(** [BrowserState.value] *)
Definition BrowserState_value (s : BrowserState) : string :=
  match s with
  | STARTING => "starting"
  | READY => "ready"
  | NAVIGATING => "navigating"
  | ERROR => "error"
  | CLOSED => "closed"
  end.

(** The attributes of the instance behind a reference. The manager only
    hands out references to objects it created; the error stands for a
    reference that names no object. *)
Definition get_object (l : nat) : M BrowserInstance :=
  λ w, match objects w !! l with
       | Some o => (Return o, w)
       | None => (Raise KeyError, w)
       end.

(** [data.get(k, dflt)] on [data = get_session_data(...) or {}], for a
    key [k] other than ["instance"]. *)
Definition data_get (data : option session) (k : string) (dflt : json) : json :=
  match data with
  | Some s =>
      if decide (k = "session_id") then session_id s
      else if decide (k = "session_token") then session_token s
      else dict_get_or k dflt (fields s)
  | None => dflt
  end.

(** [{"success": True, **result}] *)
Definition with_success (result : dict) : dict :=
  dict_update [("success", JBool true)] result.

Fixpoint M_map {A B : Type} (f : A → M B) (l : list A) : M (list B) :=
  match l with
  | [] => mret []
  | a :: l' => b ← f a; bs ← M_map f l'; mret (b :: bs)
  end.

(** *** Browser management (lines 85 to 259) *)

(** What [spawn_browser] returns: the description of the session, or
    the payment instructions, a [dict] with the five keys below. *)
Record payment_instructions : Type := {
  payment_status : string;
  price_usdc : Q;
  payment_message : pystr;
  payment_networks : list dict;
  instructions : list string
}.

Inductive spawn_reply : Type :=
| SessionInfo (info : dict)
| PaymentInstructions (p : payment_instructions).

(** One entry of the ["networks"] list of the payment instructions. *)
Definition network_entry (n : json) : result dict :=
  network ← py_get n "network" JNull;
  address ← py_get n "address" JNull;
  token ← py_get n "token" (JStr "USDC");
  Return [("network", network); ("address", address); ("token", token)].

(** The handler [except PaymentRequiredError as e] (lines 159 to 187). *)
Definition payment_required_reply (pi : dict) : result payment_instructions :=
  let networks := dict_get_or "networks" (JList []) pi in
  price_usd ← tool_price_usd pi;
  ns ← py_iter networks;
  entries ← result_map network_entry ns;
  Return
    {| payment_status := "payment_required";
       price_usdc := py_round price_usd 4;
       payment_message :=
         fstring [Lit "Send $"; Fixed 4 price_usd;
                  Lit " USDC to one of the addresses below, then retry with the tx hash as payment_signature."];
       payment_networks := entries;
       instructions :=
         ["1. Send the exact USDC amount to one of the wallet addresses above.";
          "2. Wait for the transaction to confirm (~2s Base, ~400ms Solana).";
          "3. Call spawn_browser again with payment_signature set to the tx hash."] |}.

(** The sub-dictionary of [info] with the given keys, [None] for the
    keys it lacks: [{"k": info.get("k"), ...}]. *)
Definition pick (keys : list string) (info : json) : result dict :=
  result_map (λ k, v ← py_get info k JNull; Return (k, v)) keys.

(** The body of the [try] (lines 117 to 157). *)
Definition session_info (instance : nat) : M dict :=
  inst ← get_object instance;
  session_data ← get_session_data (instance_id inst);
  let result : dict :=
    [("instance_id", instance_id inst);
     ("state", JStr (BrowserState_value (state inst)));
     ("viewport", JDict ((λ kv, (kv.1, JInt kv.2)) <$> viewport inst));
     ("expires_at", data_get session_data "expires_at" JNull)] in
  let proxy_info := data_get session_data "proxy" (JDict []) in
  result ←
    (if truthy proxy_info then
       proxy ← lift (pick ["country"; "city"; "carrier"; "ip"] proxy_info);
       mret (dict_set "proxy" (JDict proxy) result)
     else mret result);
  let fingerprint_info := data_get session_data "fingerprint" (JDict []) in
  result ←
    (if truthy fingerprint_info then
       fingerprint ← lift (pick ["os"; "browser"; "platform"] fingerprint_info);
       mret (dict_set "fingerprint" (JDict fingerprint) result)
     else mret result);
  let loaded_profile := data_get session_data "loaded_profile_id" JNull in
  mret (if truthy loaded_profile
        then dict_set "loaded_profile_id" loaded_profile result
        else result).

Definition tool_spawn_browser (country : option string) (duration_minutes : Z)
    (profile_id payment_signature user_agent : option string)
    (viewport_width viewport_height : Z) : M spawn_reply :=
  try_except
    (let options :=
       {| country := country; duration_minutes := Some duration_minutes;
          profile_id := profile_id; payment_signature := payment_signature;
          options_user_agent := user_agent;
          viewport_width := viewport_width; viewport_height := viewport_height |} in
     instance ← spawn_browser options;
     info ← session_info instance;
     mret (SessionInfo info))
    (λ e, match e with
          | PaymentRequiredError pi _ =>
              p ← lift (payment_required_reply pi);
              mret (PaymentInstructions p)
          | _ => raise (ExceptionStr "Failed to spawn browser: " e)
          end).

Definition instance_entry (l : nat) : M dict :=
  inst ← get_object l;
  data ← get_session_data (instance_id inst);
  let entry : dict :=
    [("instance_id", instance_id inst);
     ("state", JStr (BrowserState_value (state inst)));
     ("current_url", current_url inst);
     ("title", title inst);
     ("expires_at", data_get data "expires_at" JNull)] in
  let proxy_info := data_get data "proxy" (JDict []) in
  if truthy proxy_info then
    proxy_country ← lift (py_get proxy_info "country" JNull);
    mret (dict_set "proxy_country" proxy_country entry)
  else mret entry.

Definition tool_list_instances : M (list dict) :=
  instances ← list_instances;
  M_map instance_entry instances.

Definition close_instance (instance_id : string) : M dict :=
  success ← close_browser (KStr instance_id);
  mret [("success", JBool success); ("instance_id", JStr instance_id)].

(** *** Navigation (lines 266 to 337) *)

Definition tool_navigate (instance_id url wait_until : string) (timeout : int_arg)
    : M dict :=
  timeout ← lift (py_int timeout);
  result ← navigate instance_id url wait_until;
  mret [("url", dict_get_or "url" (JStr url) result);
        ("title", dict_get_or "title" (JStr "") result);
        ("success", JBool true)].

Definition go_back (instance_id : string) : M dict :=
  result ← execute_script instance_id "history.back()";
  mret [("success", JBool true)].

Definition go_forward (instance_id : string) : M dict :=
  result ← execute_script instance_id "history.forward()";
  mret [("success", JBool true)].

Definition reload_page (instance_id : string) : M dict :=
  result ← execute_script instance_id "location.reload()";
  mret [("success", JBool true)].

(** *** Element interaction (lines 344 to 423 and 494 to 555) *)

Definition click_element (instance_id selector : string) : M dict :=
  result ← click instance_id selector;
  mret (with_success result).

Definition tool_type_text (instance_id selector text : string) (human_like : bool)
    : M dict :=
  result ← type_text instance_id selector text human_like;
  mret (with_success result).

Definition paste_text (instance_id selector text : string) : M dict :=
  result ← type_text instance_id selector text false;
  mret (with_success result).

Definition tool_press_key (instance_id key : string) : M dict :=
  result ← press_key instance_id key;
  mret (with_success result).

Definition tool_wait_for_element (instance_id selector : string) (timeout : int_arg)
    : M dict :=
  timeout ← lift (py_int timeout);
  result ← wait_for_element instance_id selector timeout;
  mret (dict_update [("found", JBool true)] result).

Definition scroll_page (instance_id direction : string) (amount : int_arg) : M dict :=
  amount ← lift (py_int amount);
  let scroll_map : list (string * (Z * Z)) :=
    [("down", (0, amount)); ("up", (0, - amount));
     ("right", (amount, 0)); ("left", (- amount, 0))] in
  if decide (direction = "top") then
    result ← execute_script instance_id "window.scrollTo(0, 0)";
    mret [("success", JBool true); ("scrolled_to", JStr "top")]
  else if decide (direction = "bottom") then
    result ← execute_script instance_id
               "window.scrollTo(0, document.body.scrollHeight)";
    mret [("success", JBool true); ("scrolled_to", JStr "bottom")]
  else
    let xy := dict_get_or direction (0, amount) scroll_map in
    result ← scroll instance_id xy.1 xy.2;
    mret (dict_update
            [("success", JBool true); ("direction", JStr direction);
             ("amount", JInt amount)] result).

(** *** Content and scripts (lines 656 to 736) *)

Definition take_screenshot (instance_id : string) (full_page : bool) : M dict :=
  result ← screenshot instance_id full_page;
  let b64 := py_or (py_or (json_get "screenshot" result) (json_get "data" result))
               (json_get "base64" result) in
  if truthy b64 then mret [("format", JStr "png"); ("data", b64)]
  else mret result.

(** The [dict] with the keys ["success"], ["result"] and ["error"];
    [script_error] is [str(e)], kept as [e]. *)
Record script_reply : Type := {
  script_success : bool;
  script_result : json;
  script_error : option exn
}.

Definition tool_execute_script (instance_id script : string) : M script_reply :=
  try_except
    (result ← execute_script instance_id script;
     mret {| script_success := true; script_result := json_get "result" result;
             script_error := None |})
    (λ e, mret {| script_success := false; script_result := JNull;
                  script_error := Some e |}).

(** *** Cookies and storage (lines 758 to 860) *)

Definition tool_set_cookie (instance_id name value : string) (domain : option string)
    (path : string) (secure http_only : bool) (same_site : option string) : M dict :=
  let cookie : dict :=
    [("name", JStr name); ("value", JStr value); ("path", JStr path);
     ("secure", JBool secure); ("httpOnly", JBool http_only)] in
  let cookie :=
    if truthy_str domain then dict_set "domain" (json_of_opt_str domain) cookie
    else cookie in
  let cookie :=
    if truthy_str same_site then dict_set "sameSite" (json_of_opt_str same_site) cookie
    else cookie in
  result ← set_cookie instance_id cookie;
  mret (with_success result).

Definition tool_clear_cookies (instance_id : string) : M dict :=
  result ← clear_cookies instance_id;
  mret (with_success result).

Definition tool_set_local_storage (instance_id : string) (items : option dict)
    (key value : option string) : M dict :=
  let items := default [] items in
  let items :=
    match key, value with
    | Some k, Some v => dict_set k (JStr v) items
    | _, _ => items
    end in
  if negb (truthy (JDict items)) then
    mret [("success", JBool false);
          ("error", JStr "Provide items dict or key+value pair")]
  else
    result ← set_local_storage instance_id items;
    mret (with_success result).

(** [delete_profile] of the tools takes the instance first. *)
Definition tool_delete_profile (instance_id profile_id : string) : M dict :=
  delete_profile profile_id instance_id.

(** ** Notions used by the properties *)

(** The shape the authenticated calls share: the record is looked up,
    one request built from it is issued, and a status other than 200 is
    an error named after the operation. *)
Definition authenticated (instance_id : string) (req : session → request)
    (failure : string) : M dict :=
  instances ← get_instances;
  match dict_get (KStr instance_id) instances with
  | None => raise (Exception (JStr ("No browser instance: " +:+ instance_id)))
  | Some session =>
      _get_http;;
      resp ← http_request (req session);
      data ← resp_json resp;
      if negb (status resp =? 200) then
        raise (Exception
                 (dict_get_or "error"
                    (JStr (failure +:+ string_of_Z (status resp))) data))
      else mret data
  end.

(** What an authenticated call with the request [req] does in [w], as
    the outcome [out] shows it. *)
Definition dispatched (req : request) (failure : string) (w : world)
    (out : result dict * world) : Prop :=
  sent out.2 = sent w ++ [req] ∧
  _instances out.2 = _instances w ∧
  objects out.2 = objects w ∧
  (∀ data, remote (sent w) req = Responds 200 (Some data) → out.1 = Return data) ∧
  (∀ st data, remote (sent w) req = Responds st (Some data) → st ≠ 200 →
     out.1 = Raise (Exception
                      (dict_get_or "error"
                         (JStr (failure +:+ string_of_Z st)) data))) ∧
  (∀ st, remote (sent w) req = Responds st None → out.1 = Raise ContentTypeError) ∧
  (∀ detail, remote (sent w) req = Fails detail → out.1 = Raise (ClientError detail)).

(** What a call does when the instance is not tracked. *)
Definition rejected (instance_id : string) (w : world) (out : result dict * world)
    : Prop :=
  out = (Raise (Exception (JStr ("No browser instance: " +:+ instance_id))), w).

(** A record of the registry is sound in a state when its instance
    exists and carries the key of the record as its id, and when its
    session id is that key too, unless it is the sentinel record. *)
Definition record_ok (w : world) (k : key) (s : session) : Prop :=
  (∃ o, objects w !! instance s = Some o ∧ hash_key (instance_id o) = Some k) ∧
  (hash_key (session_id s) = Some k ∨
   (k = KStr "payment_required" ∧ session_id s = JNull ∧ session_token s = JNull)).

Definition registry_ok (w : world) : Prop :=
  NoDup (dict_keys (_instances w)) ∧
  ∀ k s, dict_get k (_instances w) = Some s → record_ok w k s.

(** The calls a user of the manager can make, and the state they lead
    to. *)
Inductive call : Type :=
| Spawn (options : BrowserOptions)
| Send (instance_id action : string) (params : option dict)
| Navigate (instance_id url wait_until : string)
| SaveProfile (instance_id : string) (name : option string)
| LoadProfile (instance_id profile_id : string)
| ListProfiles (instance_id : string)
| DeleteProfile (profile_id instance_id : string)
| Close (instance_id : key)
| CloseAll
| Cleanup.

Definition after (c : call) (w : world) : world :=
  match c with
  | Spawn options => (spawn_browser options w).2
  | Send instance_id action params => (send_command instance_id action params w).2
  | Navigate instance_id url wait_until => (navigate instance_id url wait_until w).2
  | SaveProfile instance_id name => (save_profile instance_id name w).2
  | LoadProfile instance_id profile_id => (load_profile instance_id profile_id w).2
  | ListProfiles instance_id => (list_profiles instance_id w).2
  | DeleteProfile profile_id instance_id => (delete_profile profile_id instance_id w).2
  | Close instance_id => (close_browser instance_id w).2
  | CloseAll => (close_all w).2
  | Cleanup => (cleanup w).2
  end.

(** The state a new manager reaches by a sequence of calls. *)
Definition reached (calls : list call) : world := foldl (λ w c, after c w) init_world calls.

(** The objects of [w] are kept in [w'], each with its id. *)
Definition objects_kept (w w' : world) : Prop :=
  ∀ l o, objects w !! l = Some o →
         ∃ o', objects w' !! l = Some o' ∧ instance_id o' = instance_id o.

(** A tool passes on what an operation of the manager does: its state,
    its error as it is, and its result through [f]. *)
Definition passes_on {A B : Type} (f : A → B) (tool : M B) (op : M A) : Prop :=
  ∀ w, tool w = match op w with
                | (Return body, w') => (Return (f body), w')
                | (Raise e, w') => (Raise e, w')
                end.

(** A computation is plain when what it raises is never a
    [PaymentRequiredError]. *)
Definition plainM {A : Type} (m : M A) : Prop :=
  ∀ w e w', m w = (Raise e, w') → is_PaymentRequiredError e = false.

(** The entry of the payment instructions for the network [n]. *)
Definition entry_of (n : json) (entry : dict) : Prop :=
  ∃ nd, n = JDict nd ∧
        entry = [("network", json_get "network" nd);
                 ("address", json_get "address" nd);
                 ("token", dict_get_or "token" (JStr "USDC") nd)].

(** ** The rule of the specification for the price

    Written after the text of the specification: a bare number above
    1000 is micro-denominated and divided by 1,000,000; otherwise a
    structured amount contributes its [amount] field (0 when absent);
    otherwise the price is taken as a decimal already. Amounts are
    floats: decimals are read with [float()] and the division is the
    one of floats, [/]. *)
Definition spec_price_usd (price : json) : result Q :=
  match price with
  | JInt n =>
      if 1000 <? n then py_truediv price 1000000
      else py_float price
  | JFloat x =>
      if Qlt_le_dec (Q_of_Z 1000) x then Return (true_div x (Q_of_Z 1000000))
      else py_float price
  | JDict amount_object =>
      match dict_get "amount" amount_object with
      | Some amount => py_float amount
      | None => Return (Q_of_Z 0)
      end
  | _ => py_float price
  end.

(** ** States reached on the way

    [requested] is the state in which the reply to a creation request
    arrives: the clock was read twice, the pending instance exists, the
    client is open and the request is logged. [failed] is the state
    after the handler of [spawn_browser] marked the instance. *)
Definition requested (options : BrowserOptions) (w : world) : world :=
  with_sent (creation_request options)
    (with_http OpenSession
       (with_objects
          (λ os, os ++ [pending_instance options (now (clock_reads w))
                          (now (S (clock_reads w)))])
          (with_tick (with_tick w)))).

Definition failed (l : nat) (w : world) : world :=
  with_objects (alter (set_state ERROR) l) w.

Definition creation_failure (e : exn) : exn :=
  ExceptionStr "Failed to create browser session: " e.

(** The state after the 402 branch stored the sentinel record. *)
Definition payment_recorded (options : BrowserOptions) (data : dict) (w : world) : world :=
  let l := length (objects w) in
  with_instances (dict_set (KStr "payment_required") (payment_session l data))
    (with_objects (alter (set_instance_id (JStr "payment_required")) l)
       (with_objects (alter (set_state ERROR) l) (requested options w))).

(** The state after the success branch updated the instance. *)
Definition readied (options : BrowserOptions) (data : dict) (w : world) : world :=
  let l := length (objects w) in
  with_objects (alter (set_state READY) l)
    (with_objects (alter (set_instance_id (json_get "session_id" data)) l)
       (requested options w)).

(** The instance as [navigate] leaves it. *)
Definition navigated (url : string) (result : dict) (t : Z) (o : BrowserInstance)
    : BrowserInstance :=
  {| instance_id := instance_id o;
     state := READY;
     current_url := match dict_get "url" result with Some u => u | None => JStr url end;
     title := match dict_get "title" result with Some t => t | None => JStr "" end;
     created_at := created_at o;
     last_activity := t;
     headless := headless o;
     user_agent := user_agent o;
     viewport := viewport o |}.

(** A result is plain when what it raises, if anything, is not a
    [PaymentRequiredError]. *)
Definition plain {A : Type} (r : result A) : Prop :=
  ∀ e, r = Raise e → is_PaymentRequiredError e = false.

(** A caller that dispatches commands to one instance, one after the
    other, whatever their outcome. *)
Definition dispatch_each (instance_id : string)
    (commands : list (string * option dict)) : M unit :=
  for_each commands
    (λ c, try_except (send_command instance_id c.1 c.2;; mret tt) (λ _, mret tt)).

(** ** Dictionaries *)

Section DictFacts.
Context {K V : Type} `{EqDecision K}.
Implicit Types (k : K) (v : V) (d : list (K * V)).

Lemma dict_get_set_eq k v d : dict_get k (dict_set k v d) = Some v.
Proof.
  induction d as [|[k' v'] d IH]; simpl.
  - by rewrite decide_True.
  - destruct (decide (k' = k)) as [->|Hne]; simpl.
    + by rewrite decide_True.
    + by rewrite decide_False.
Qed.

Lemma dict_get_set_ne k k' v d :
  k ≠ k' → dict_get k' (dict_set k v d) = dict_get k' d.
Proof.
  intros Hne. induction d as [|[k0 v0] d IH]; simpl.
  - by rewrite decide_False.
  - destruct (decide (k0 = k)) as [->|Hk]; simpl.
    + by rewrite !decide_False.
    + destruct (decide (k0 = k')); [done | apply IH].
Qed.

Lemma dict_get_del_eq k d : dict_get k (dict_del k d) = None.
Proof.
  unfold dict_del. induction d as [|[k' v'] d IH]; [done|].
  rewrite filter_cons. simpl. destruct (decide (k' ≠ k)) as [Hne|Heq]; simpl.
  - by rewrite decide_False.
  - done.
Qed.

Lemma dict_get_del_ne k k' d :
  k ≠ k' → dict_get k' (dict_del k d) = dict_get k' d.
Proof.
  intros Hne. unfold dict_del. induction d as [|[k0 v0] d IH]; [done|].
  rewrite filter_cons. simpl. destruct (decide (k0 ≠ k)) as [Hk|Hk]; simpl.
  - by rewrite IH.
  - apply dec_stable in Hk. subst k0. by rewrite decide_False.
Qed.

Lemma dict_get_del_None k k' d :
  dict_get k' d = None → dict_get k' (dict_del k d) = None.
Proof.
  intros Hd. destruct (decide (k = k')) as [->|Hne].
  - apply dict_get_del_eq.
  - by rewrite dict_get_del_ne.
Qed.

Lemma dict_get_keys k d : k ∈ dict_keys d → is_Some (dict_get k d).
Proof.
  unfold dict_keys. induction d as [|[k' v'] d IH]; simpl.
  - by intros ?%elem_of_nil.
  - intros [->|Hin]%elem_of_cons.
    + rewrite decide_True; [eauto | done].
    + destruct (decide (k' = k)); [eauto | by apply IH].
Qed.

End DictFacts.

(** ** Symbolic execution *)

#[local] Arguments PaymentRequiredError_init : simpl never.
#[local] Arguments creation_request : simpl never.
#[local] Arguments command_request : simpl never.
#[local] Arguments close_request : simpl never.
#[local] Arguments pending_instance : simpl never.

Ltac unfold_ops :=
  unfold spawn_browser, send_command, navigate, close_browser, get_session_data,
    set_instance, del_instance, try_except, datetime_now, new_object,
    modify_object, modify_instances, get_instances, _get_http, http_request,
    resp_json, raise, lift, mbind, M_bind, mret, M_ret in *.

(** Symbolic execution: the state is opened, the client's three states
    are told apart, and every test met on the way is decided by cases. *)
Ltac run w :=
  unfold_ops; destruct w as [reg [] objs log ticks]; cbn in *;
  repeat (case_match; cbn in *; simplify_eq; try done).

(** ** The creation request *)

Lemma spawn_browser_sent options w :
  sent (spawn_browser options w).2 = sent w ++ [creation_request options].
Proof. run w. Qed.

Lemma creation_body_durationMinutes options :
  dict_get "durationMinutes" (creation_body options) =
    Some (JInt (match duration_minutes options with
                | Some d => if d =? 0 then 60 else d
                | None => 60
                end)).
Proof.
  unfold creation_body.
  destruct (truthy_str (country options)), (duration_minutes options) as [d|],
    (truthy_str (profile_id options)); try destruct (d =? 0); reflexivity.
Qed.

(** C9. Every creation call issues one request, the creation request,
    whose body holds the key [durationMinutes]: the requested duration
    when it is set and not zero, and 60 otherwise, so also for an
    explicit duration of 0. *)
Theorem spawn_browser_durationMinutes options w :
  sent (spawn_browser options w).2 = sent w ++ [creation_request options] ∧
  json_body (creation_request options) = Some (creation_body options) ∧
  dict_get "durationMinutes" (creation_body options) =
    Some (JInt (match duration_minutes options with
                | Some d => if d =? 0 then 60 else d
                | None => 60
                end)).
Proof.
  split; [apply spawn_browser_sent|].
  split; [reflexivity | apply creation_body_durationMinutes].
Qed.

(** ** Price normalisation *)

Lemma Qgtb_of_Z n m : Qgtb (Q_of_Z n) (Q_of_Z m) = (m <? n).
Proof.
  unfold Qgtb, Qle_bool, Q_of_Z, inject_Z. simpl.
  rewrite !Z.mul_1_r. symmetry. apply Z.ltb_antisym.
Qed.

Lemma Qgtb_dec x y : Qgtb y x = if Qlt_le_dec x y then true else false.
Proof.
  unfold Qgtb. destruct (Qlt_le_dec x y) as [Hlt|Hle].
  - destruct (Qle_bool y x) eqn:E; [|done].
    apply Qle_bool_iff in E. exfalso. by apply (Qlt_not_le x y).
  - apply Qle_bool_iff in Hle. by rewrite Hle.
Qed.

Lemma PaymentRequiredError_price_usd_spec pi :
  PaymentRequiredError_price_usd pi = spec_price_usd (dict_get_or "price" (JInt 0) pi).
Proof.
  unfold PaymentRequiredError_price_usd.
  destruct (dict_get_or "price" (JInt 0) pi) as [|b|n|x|s|l|d]; cbn; try done.
  - by destruct b.
  - rewrite Qgtb_of_Z. by destruct (1000 <? n).
  - rewrite Qgtb_dec. by destruct (Qlt_le_dec (Q_of_Z 1000) x).
  - unfold dict_get_or. by destruct (dict_get "amount" d).
Qed.

Lemma float_limit_pos : 0 < float_limit.
Proof. reflexivity. Qed.

(** The quotient of a positive integer by 1,000,000 has a float when
    the integer is below 1,000,000 times the limit. *)
Lemma float_overflow_micro n :
  0 < n →
  float_overflow (true_div (Q_of_Z n) (Q_of_Z 1000000))
  = (1000000 * float_limit <=? n).
Proof.
  intros Hn. pose proof float_limit_pos as Hlimit.
  unfold float_overflow, true_div.
  assert (Qred (Q_of_Z n / Q_of_Z 1000000) == n # 1000000)%Q as ->.
  { rewrite Qred_correct. unfold Q_of_Z, Qeq. simpl. lia. }
  unfold Qle_bool, Q_of_Z. simpl.
  destruct (Z.leb_spec (float_limit * 1000000) (n * 1)),
    (Z.leb_spec (n * 1) (- float_limit * 1000000)),
    (Z.leb_spec (1000000 * float_limit) n); cbn; try reflexivity; lia.
Qed.


(** ** Dispatch *)

Lemma send_command_absent instance_id action params w :
  dict_get (KStr instance_id) (_instances w) = None →
  send_command instance_id action params w
  = (Raise (Exception (JStr ("No browser instance: " +:+ instance_id))), w).
Proof. intros Habs. unfold_ops. cbn. by rewrite Habs. Qed.

(** The run of [send_command] on a tracked instance. *)
Lemma send_command_found instance_id action params w s :
  dict_get (KStr instance_id) (_instances w) = Some s →
  send_command instance_id action params w =
    let req := command_request s action params in
    let w' := with_sent req (with_http OpenSession w) in
    match remote (sent w) req with
    | Fails d => (Raise (ClientError d), w')
    | Responds st None => (Raise ContentTypeError, w')
    | Responds st (Some data) =>
        if st =? 200 then (Return data, w')
        else (Raise (Exception
                       (dict_get_or "error"
                          (JStr ("Command failed: " +:+ string_of_Z st)) data)), w')
    end.
Proof. intros Hs. run w. Qed.

Lemma command_body_merge action params :
  command_body action params
  = dict_update [("action", JStr action)] (default [] params).
Proof. by destruct params as [[|]|]. Qed.

(** C6. A dispatch to an id that is absent from the registry fails with
    the unknown-instance error and leaves the state, hence the log of
    network calls, as it was. A dispatch to an id that is present issues
    exactly one call: a POST to the command endpoint of the session,
    whose body merges the action with the parameters and whose
    [Authorization] header is ["Bearer "] followed by the stored token;
    a reply 200 returns the decoded body as it is, and any other status
    raises the generic error with the [error] field of the body, or with
    the status code when the body has none. *)
Theorem send_command_dispatch instance_id action params w :
  (dict_get (KStr instance_id) (_instances w) = None →
   send_command instance_id action params w
   = (Raise (Exception (JStr ("No browser instance: " +:+ instance_id))), w)) ∧
  (∀ s, dict_get (KStr instance_id) (_instances w) = Some s →
   let req := command_request s action params in
   let out := send_command instance_id action params w in
   sent out.2 = sent w ++ [req] ∧
   method req = POST ∧
   url req = fstring [Lit API_BASE; Lit "/v1/sessions/"; str_json (session_id s);
                      Lit "/command"] ∧
   json_body req = Some (dict_update [("action", JStr action)] (default [] params)) ∧
   dict_get "Authorization" (headers req)
   = Some (fstring [Lit "Bearer "; str_json (session_token s)]) ∧
   (∀ data, remote (sent w) req = Responds 200 (Some data) → out.1 = Return data) ∧
   (∀ st data, remote (sent w) req = Responds st (Some data) → st ≠ 200 →
      out.1 = Raise (Exception
                       (dict_get_or "error"
                          (JStr ("Command failed: " +:+ string_of_Z st)) data)))).
Proof.
  split; [apply send_command_absent|].
  intros s Hs req out. subst out. rewrite (send_command_found _ _ _ _ _ Hs).
  fold req. cbn zeta.
  split; [by destruct (remote (sent w) req) as [|? [|]]; try case_match|].
  split; [done|]. split; [done|].
  split; [by rewrite <- command_body_merge|].
  split; [done|].
  split.
  - intros data ->. done.
  - intros st data -> Hst. by apply Z.eqb_neq in Hst as ->.
Qed.

(** ** Creation *)

Lemma PaymentRequiredError_init_is data e :
  PaymentRequiredError_init data = Return e → is_PaymentRequiredError e = true.
Proof.
  unfold PaymentRequiredError_init, mbind, result_bind.
  destruct (py_iter _) as [ns|]; [|done].
  destruct (result_map _ _) as [lines|]; [|done].
  destruct (PaymentRequiredError_price_usd data) as [price_usd|]; [|done].
  by intros [= <-].
Qed.

Lemma plain_bind {A B : Type} (r : result A) (f : A → result B) :
  plain r → (∀ a, plain (f a)) → plain (r ≫= f).
Proof.
  intros Hr Hf e. destruct r as [a|e']; cbn.
  - apply Hf.
  - intros [= <-]. by apply Hr.
Qed.

Lemma plain_Return {A : Type} (a : A) : plain (Return a).
Proof. by intros e. Qed.

Lemma plain_py_get v k dflt : plain (py_get v k dflt).
Proof. intros e. destruct v; cbn; by intros [= <-]. Qed.

Lemma plain_py_float v : plain (py_float v).
Proof.
  intros e. destruct v as [|b|n|x|s|l|d]; cbn; try by intros [= <-].
  - destruct (float_overflow (Q_of_Z n)); by intros [= <-].
  - destruct (float_of_str s); by intros [= <-].
Qed.

Lemma plain_py_gt v n : plain (py_gt v n).
Proof. intros e. unfold py_gt. destruct (num_value v); by intros [= <-]. Qed.

Lemma plain_py_truediv v n : plain (py_truediv v n).
Proof.
  intros e. unfold py_truediv, int_truediv.
  destruct v; cbv zeta; try by intros [= <-].
  all: destruct (float_overflow _); by intros [= <-].
Qed.

Lemma plain_py_iter v : plain (py_iter v).
Proof. intros e. destruct v; cbn; by intros [= <-]. Qed.

Lemma plain_result_map {A B : Type} (f : A → result B) (l : list A) :
  (∀ a, plain (f a)) → plain (result_map f l).
Proof.
  intros Hf. induction l as [|a l IH]; cbn.
  - apply plain_Return.
  - apply plain_bind; [apply Hf|]. intros b.
    apply plain_bind; [apply IH|]. intros bs. apply plain_Return.
Qed.

Lemma plain_price_usd pi : plain (PaymentRequiredError_price_usd pi).
Proof.
  unfold PaymentRequiredError_price_usd. apply plain_bind.
  - destruct (isinstance_int_float _); [apply plain_py_gt | apply plain_Return].
  - intros [|]; [apply plain_py_truediv|].
    destruct (isinstance_dict _); [|apply plain_py_float].
    apply plain_bind; [apply plain_py_get|]. intros a. apply plain_py_float.
Qed.

Lemma PaymentRequiredError_init_raises data e :
  PaymentRequiredError_init data = Raise e → is_PaymentRequiredError e = false.
Proof.
  revert e. change (plain (PaymentRequiredError_init data)).
  unfold PaymentRequiredError_init.
  apply plain_bind; [apply plain_py_iter|]. intros ns.
  apply plain_bind.
  { apply plain_result_map. intros n. unfold network_line.
    apply plain_bind; [apply plain_py_get|]. intros a.
    apply plain_bind; [apply plain_py_get|]. intros b. apply plain_Return. }
  intros lines. apply plain_bind; [apply plain_price_usd|].
  intros x e. by intros [=].
Qed.

(** The run of [spawn_browser], by the reply of the service. *)
Lemma spawn_browser_run options w :
  spawn_browser options w =
    let l := length (objects w) in
    match remote (sent w) (creation_request options) with
    | Fails d =>
        (Raise (creation_failure (ClientError d)), failed l (requested options w))
    | Responds st None =>
        (Raise (creation_failure ContentTypeError), failed l (requested options w))
    | Responds st (Some data) =>
        if st =? 402 then
          match PaymentRequiredError_init data with
          | Return e => (Raise e, payment_recorded options data w)
          | Raise e =>
              (Raise (creation_failure e), failed l (payment_recorded options data w))
          end
        else if (st =? 200) || (st =? 201) then
          let session_id := json_get "session_id" data in
          let session_token := dict_get_or "session_token" session_id data in
          match hash_key session_id with
          | Some k =>
              (Return l,
               with_instances
                 (dict_set k (created_session l session_id session_token data))
                 (readied options data w))
          | None => (Raise (creation_failure TypeError), failed l (readied options data w))
          end
        else
          (Raise (creation_failure
                    (Exception
                       (dict_get_or "error"
                          (JStr ("API error " +:+ string_of_Z st)) data))),
           failed l (requested options w))
    end.
Proof.
  unfold spawn_browser, creation_failure, failed, payment_recorded, readied, requested.
  unfold_ops. destruct w as [reg http objs log ticks]. cbn.
  destruct http; cbn;
    (destruct (remote log (creation_request options)) as [d|st [data|]]; cbn;
     [done | | done];
     destruct (st =? 402); cbn;
     [ destruct (PaymentRequiredError_init data) as [e|e] eqn:He; cbn;
       [ by rewrite (PaymentRequiredError_init_is _ _ He)
       | by rewrite (PaymentRequiredError_init_raises _ _ He) ]
     | destruct ((st =? 200) || (st =? 201)); cbn; [|done];
       by destruct (hash_key (json_get "session_id" data)) ]).
Qed.

Lemma alter_last {A : Type} (f : A → A) (l : list A) (a : A) :
  alter f (length l) (l ++ [a]) = l ++ [f a].
Proof.
  rewrite <- (Nat.add_0_r (length l)) at 1. by rewrite alter_app_r.
Qed.

Lemma objects_with_instances f w : objects (with_instances f w) = objects w.
Proof. done. Qed.

Lemma objects_readied options data w :
  objects (readied options data w)
  = objects w ++ [set_state READY
                    (set_instance_id (json_get "session_id" data)
                       (pending_instance options (now (clock_reads w))
                          (now (S (clock_reads w)))))].
Proof. unfold readied, requested. cbn. by rewrite !alter_last. Qed.

(** Creation on a reply 200 or 201 whose [session_id] is hashable. *)
Lemma spawn_browser_ok options w st data k :
  remote (sent w) (creation_request options) = Responds st (Some data) →
  st = 200 ∨ st = 201 →
  hash_key (json_get "session_id" data) = Some k →
  let session_id := json_get "session_id" data in
  let session_token := dict_get_or "session_token" session_id data in
  let l := length (objects w) in
  spawn_browser options w
  = (Return l,
     with_instances (dict_set k (created_session l session_id session_token data))
       (readied options data w)).
Proof.
  intros Hreply Hst Hk. rewrite spawn_browser_run, Hreply. cbn zeta.
  assert ((st =? 402) = false) as -> by (apply Z.eqb_neq; lia).
  assert (((st =? 200) || (st =? 201)) = true) as ->.
  { destruct Hst as [-> | ->]; done. }
  by rewrite Hk.
Qed.

(** C3, amended. For a creation reply whose body is a JSON object: when
    the status is 200 or 201 and the [session_id] of the body is
    hashable, creation succeeds: the instance returned carries that id
    and is ready, and the record built from the body, with the token
    defaulting to the id, is stored under that id; when the status is
    none of 200, 201 and 402, so also for 202 and the rest of the 2xx
    range, creation raises the generic failure carrying the [error]
    field of the body, or the status when the body has none, and the
    registry is as it was. *)
Theorem spawn_browser_by_status options w st data :
  remote (sent w) (creation_request options) = Responds st (Some data) →
  let out := spawn_browser options w in
  let session_id := json_get "session_id" data in
  let session_token := dict_get_or "session_token" session_id data in
  (st = 200 ∨ st = 201 → ∀ k, hash_key session_id = Some k →
   ∃ l o,
     out.1 = Return l ∧
     objects out.2 !! l = Some o ∧
     instance_id o = session_id ∧
     state o = READY ∧
     _instances out.2
     = dict_set k (created_session l session_id session_token data) (_instances w) ∧
     dict_get k (_instances out.2)
     = Some (created_session l session_id session_token data)) ∧
  (st ≠ 200 → st ≠ 201 → st ≠ 402 →
   out.1 = Raise (creation_failure
                    (Exception
                       (dict_get_or "error"
                          (JStr ("API error " +:+ string_of_Z st)) data))) ∧
   _instances out.2 = _instances w).
Proof.
  intros Hreply out session_id session_token. subst out. split.
  - intros Hst k Hk.
    rewrite (spawn_browser_ok _ _ _ _ _ Hreply Hst Hk). cbn [fst snd].
    eexists _, _. split; [done|].
    rewrite objects_with_instances, objects_readied, list_lookup_middle by done.
    split; [done|]. split; [done|]. split; [done|]. split; [done|].
    apply dict_get_set_eq.
  - intros H200 H201 H402. rewrite spawn_browser_run, Hreply. cbn zeta.
    apply Z.eqb_neq in H200 as ->. apply Z.eqb_neq in H201 as ->.
    apply Z.eqb_neq in H402 as ->. done.
Qed.

(** C5. When creation succeeds, the id of the instance returned is the
    [session_id] of the reply, and looking that id up gives a record
    whose token is the [session_token] of the reply when the key is
    there, and the [session_id] when it is not. *)
Theorem spawn_browser_created options w l w' :
  spawn_browser options w = (Return l, w') →
  ∃ st data o r,
    remote (sent w) (creation_request options) = Responds st (Some data) ∧
    objects w' !! l = Some o ∧
    instance_id o = json_get "session_id" data ∧
    get_session_data (instance_id o) w' = (Return (Some r), w') ∧
    session_token r = match dict_get "session_token" data with
                      | Some token => token
                      | None => json_get "session_id" data
                      end.
Proof.
  rewrite spawn_browser_run. cbn zeta.
  destruct (remote (sent w) (creation_request options)) as [d|st [data|]];
    [done| |done].
  destruct (st =? 402).
  { destruct (PaymentRequiredError_init data); done. }
  destruct ((st =? 200) || (st =? 201)); [|done].
  destruct (hash_key (json_get "session_id" data)) as [k|] eqn:Hk; [|done].
  intros [= <- <-]. eexists st, data, _, _.
  split; [done|].
  rewrite objects_with_instances, objects_readied, list_lookup_middle by done.
  split; [done|]. split; [done|]. split.
  - unfold_ops. cbn. rewrite Hk. by rewrite dict_get_set_eq.
  - cbn. unfold dict_get_or. by destruct (dict_get "session_token" data).
Qed.

(** ** Commands after creation *)

Lemma send_command_world instance_id action params w s :
  dict_get (KStr instance_id) (_instances w) = Some s →
  (send_command instance_id action params w).2
  = with_sent (command_request s action params) (with_http OpenSession w).
Proof.
  intros Hs. rewrite (send_command_found _ _ _ _ _ Hs). cbn zeta.
  destruct (remote _ _) as [|? [|]]; try done. by case_match.
Qed.

Lemma dispatch_one instance_id action params w s :
  dict_get (KStr instance_id) (_instances w) = Some s →
  try_except (send_command instance_id action params;; mret tt) (λ _, mret tt) w
  = (Return tt, with_sent (command_request s action params) (with_http OpenSession w)).
Proof.
  intros Hs. unfold try_except, mbind, M_bind, mret, M_ret.
  pose proof (send_command_world instance_id action params w s Hs) as Hw.
  destruct (send_command instance_id action params w) as [[data|e] w1];
    cbn in Hw; by subst w1.
Qed.

Lemma dispatch_each_sent instance_id commands w s :
  dict_get (KStr instance_id) (_instances w) = Some s →
  sent (dispatch_each instance_id commands w).2
  = sent w ++ ((λ c, command_request s c.1 c.2) <$> commands).
Proof.
  unfold dispatch_each. revert w.
  induction commands as [|[action params] commands IH]; intros w Hs.
  - cbn. by rewrite app_nil_r.
  - cbn [for_each]. unfold mbind at 1, M_bind at 1.
    rewrite (dispatch_one _ _ _ _ _ Hs), IH by done.
    cbn. by rewrite <- app_assoc.
Qed.

(** C10. When a reply 200 or 201 holds the key [session_token] with the
    value null, creation succeeds and the record stored for the session
    has a null token, not the session id; and whatever commands are then
    dispatched to that instance, each of them is sent with the
    [Authorization] header built from that null token. *)
Theorem null_token_is_kept options w st data k :
  remote (sent w) (creation_request options) = Responds st (Some data) →
  st = 200 ∨ st = 201 →
  hash_key (json_get "session_id" data) = Some k →
  dict_get "session_token" data = Some JNull →
  let out := spawn_browser options w in
  out.1 = Return (length (objects w)) ∧
  (∃ r, dict_get k (_instances out.2) = Some r ∧
        session_id r = json_get "session_id" data ∧ session_token r = JNull) ∧
  (∀ id commands, k = KStr id →
     ∃ reqs,
       sent (dispatch_each id commands out.2).2 = sent out.2 ++ reqs ∧
       length reqs = length commands ∧
       Forall (λ req, dict_get "Authorization" (headers req) = Some [Lit "Bearer None"])
         reqs).
Proof.
  intros Hreply Hst Hk Htoken out. subst out.
  rewrite (spawn_browser_ok _ _ _ _ _ Hreply Hst Hk). cbn [fst snd].
  split; [done|].
  assert (∃ r, dict_get k
                 (_instances
                    (with_instances
                       (dict_set k
                          (created_session (length (objects w))
                             (json_get "session_id" data)
                             (dict_get_or "session_token"
                                (json_get "session_id" data) data) data))
                       (readied options data w))) = Some r ∧
               session_id r = json_get "session_id" data ∧ session_token r = JNull)
    as (r & Hr & Hsid & Htok).
  { eexists. split; [apply dict_get_set_eq|]. cbn. split; [done|].
    unfold dict_get_or. by rewrite Htoken. }
  split; [by eexists|].
  intros id commands ->. eexists. split; [by apply dispatch_each_sent|].
  split; [by rewrite length_fmap|].
  apply Forall_fmap, Forall_true. intros [action params]. cbn.
  unfold command_request. cbn. by rewrite Htok.
Qed.

(** ** Navigation *)

Lemma navigated_steps url result t o :
  set_last_activity t
    (set_state READY
       (set_title (dict_get_or "title" (JStr "") result)
          (set_current_url (dict_get_or "url" (JStr url) result) o)))
  = navigated url result t o.
Proof.
  unfold navigated, dict_get_or, set_last_activity, set_state, set_title,
    set_current_url. cbn.
  by destruct (dict_get "url" result), (dict_get "title" result).
Qed.

(** C7. When [navigate] succeeds, the instance is tracked, the one
    request sent is the command [navigate] with the URL and the wait
    condition, the reply to it had the status 200, and the result is the
    body of that reply. The instance of the session has its URL set to
    the [url] field of that body when there is one and to the requested
    URL otherwise, its title to the [title] field or to the empty
    string, its state to ready and its last activity to the reading of
    the clock; its other attributes, the other objects, and the registry
    with the record of the session, are as they were. *)
Theorem navigate_updates id url wait_until w result w' :
  navigate id url wait_until w = (Return result, w') →
  ∃ s,
    dict_get (KStr id) (_instances w) = Some s ∧
    let req := command_request s "navigate"
                 (Some [("url", JStr url); ("wait_until", JStr wait_until)]) in
    remote (sent w) req = Responds 200 (Some result) ∧
    sent w' = sent w ++ [req] ∧
    _instances w' = _instances w ∧
    objects w'
    = alter (navigated url result (now (clock_reads w))) (instance s) (objects w) ∧
    ∀ o, objects w !! instance s = Some o →
         ∃ o', objects w' !! instance s = Some o' ∧
               current_url o' = dict_get_or "url" (JStr url) result ∧
               title o' = dict_get_or "title" (JStr "") result ∧
               state o' = READY ∧
               last_activity o' = now (clock_reads w) ∧
               instance_id o' = instance_id o ∧
               created_at o' = created_at o ∧
               headless o' = headless o ∧
               user_agent o' = user_agent o ∧
               viewport o' = viewport o.
Proof.
  unfold navigate. unfold mbind at 1, M_bind at 1.
  destruct (dict_get (KStr id) (_instances w)) as [s|] eqn:Hs.
  - rewrite (send_command_found _ _ _ _ _ Hs). cbn zeta.
    destruct (remote _ _) as [|st [data|]] eqn:Hreply; [done| |done].
    destruct (st =? 200) eqn:Hst; [|done].
    apply Z.eqb_eq in Hst as ->.
    unfold_ops. cbn. rewrite Hs. cbn. intros [= <- <-].
    exists s. split; [done|]. split; [done|]. split; [done|]. split; [done|].
    cbn.
    assert (alter (set_last_activity (now (clock_reads w))) (instance s)
              (alter (set_state READY) (instance s)
                 (alter (set_title (dict_get_or "title" (JStr "") data)) (instance s)
                    (alter (set_current_url (dict_get_or "url" (JStr url) data))
                       (instance s) (objects w))))
            = alter (navigated url data (now (clock_reads w))) (instance s) (objects w))
      as ->.
    { rewrite !list_alter_alter_eq. apply list_alter_ext; [|done].
      intros o _. apply navigated_steps. }
    split; [done|].
    intros o Ho. exists (navigated url data (now (clock_reads w)) o).
    split; [by rewrite list_lookup_alter_eq, Ho|].
    unfold navigated, dict_get_or. cbn.
    by destruct (dict_get "url" data), (dict_get "title" data).
  - by rewrite send_command_absent.
Qed.

(** ** The sentinel record *)

Lemma spawn_browser_payment options w e w1 :
  spawn_browser options w = (Raise e, w1) →
  is_PaymentRequiredError e = true →
  ∃ data,
    remote (sent w) (creation_request options) = Responds 402 (Some data) ∧
    PaymentRequiredError_init data = Return e ∧
    w1 = payment_recorded options data w.
Proof.
  rewrite spawn_browser_run. cbn zeta. intros Hrun He.
  destruct (remote (sent w) (creation_request options)) as [d|st [data|]];
    [by simplify_eq| |by simplify_eq].
  destruct (st =? 402) eqn:Hst.
  - apply Z.eqb_eq in Hst as ->.
    destruct (PaymentRequiredError_init data) as [e'|e'] eqn:Hinit;
      [|by simplify_eq].
    exists data. by simplify_eq.
  - destruct ((st =? 200) || (st =? 201)); [|by simplify_eq].
    destruct (hash_key (json_get "session_id" data)); by simplify_eq.
Qed.

(** Creation on a reply 402: the sentinel record is stored, and the call
    raises the [PaymentRequiredError] when its construction succeeds. *)
Lemma spawn_browser_402 options w data :
  remote (sent w) (creation_request options) = Responds 402 (Some data) →
  let out := spawn_browser options w in
  dict_get (KStr "payment_required") (_instances out.2)
  = Some (payment_session (length (objects w)) data) ∧
  match PaymentRequiredError_init data with
  | Return e => out.1 = Raise e
  | Raise e => out.1 = Raise (creation_failure e)
  end.
Proof.
  intros Hreply. cbn zeta. rewrite spawn_browser_run, Hreply. cbn zeta.
  change (402 =? 402) with true. cbv iota.
  destruct (PaymentRequiredError_init data); split; try done;
    unfold failed, payment_recorded; cbn; apply dict_get_set_eq.
Qed.

Lemma sentinel_stored options data w :
  dict_get (KStr "payment_required") (_instances (payment_recorded options data w))
  = Some (payment_session (length (objects w)) data).
Proof. unfold payment_recorded. cbn. apply dict_get_set_eq. Qed.

(** C1, amended. While the sentinel record, with its null session id
    and token, is stored under ["payment_required"], as it is after a
    creation answered with 402, a dispatch to ["payment_required"] finds
    it and issues exactly one call: a POST to the command endpoint of the
    session [None], with the [Authorization] header ["Bearer None"]; as
    for any record, a reply 200 returns the body and any other status
    raises the generic error. *)
Theorem sentinel_is_dispatched w s action params :
  dict_get (KStr "payment_required") (_instances w) = Some s →
  session_id s = JNull →
  session_token s = JNull →
  let out := send_command "payment_required" action params w in
  ∃ req,
    sent out.2 = sent w ++ [req] ∧
    method req = POST ∧
    url req = [Lit (API_BASE +:+ "/v1/sessions/None/command")] ∧
    json_body req = Some (dict_update [("action", JStr action)] (default [] params)) ∧
    dict_get "Authorization" (headers req) = Some [Lit "Bearer None"] ∧
    (∀ data, remote (sent w) req = Responds 200 (Some data) → out.1 = Return data) ∧
    (∀ st data, remote (sent w) req = Responds st (Some data) → st ≠ 200 →
       out.1 = Raise (Exception
                        (dict_get_or "error"
                           (JStr ("Command failed: " +:+ string_of_Z st)) data))).
Proof.
  intros Hs Hsid Htoken out.
  exists (command_request s action params).
  subst out. rewrite (send_command_found _ _ _ _ _ Hs). cbn zeta.
  split; [by destruct (remote _ _) as [|? [|]]; try case_match|].
  split; [done|].
  split; [unfold command_request; cbn; by rewrite Hsid|].
  split; [by rewrite <- command_body_merge|].
  split; [unfold command_request; cbn; by rewrite Htoken|].
  split.
  - by intros d ->.
  - intros st d -> Hst. by apply Z.eqb_neq in Hst as ->.
Qed.

(** ** Closing *)

Lemma dict_del_absent {K V : Type} `{EqDecision K} (k : K) (d : list (K * V)) :
  dict_get k d = None → dict_del k d = d.
Proof.
  unfold dict_del. induction d as [|[k' v'] d IH]; [done|]. simpl.
  destruct (decide (k' = k)) as [->|Hne]; [done|]. intros Hd.
  rewrite filter_cons. simpl. rewrite decide_True by done. by rewrite IH.
Qed.

(** The run of [close_browser]. *)
Lemma close_browser_run instance_id w :
  close_browser instance_id w =
    match dict_get instance_id (_instances w) with
    | None => (Return false, w)
    | Some s =>
        (Return true,
         with_instances (dict_del instance_id)
           (with_sent (close_request s) (with_http OpenSession w)))
    end.
Proof.
  unfold_ops. destruct w as [reg http objs log ticks]. cbn.
  destruct (dict_get instance_id reg) as [s|] eqn:Hs; [|done]. cbn.
  destruct http; cbn;
    (destruct (remote log (close_request s)) as [d|st b]; cbn;
     rewrite Hs; done).
Qed.

Lemma close_browser_instances instance_id w :
  _instances (close_browser instance_id w).2 = dict_del instance_id (_instances w).
Proof.
  rewrite close_browser_run.
  destruct (dict_get instance_id (_instances w)) eqn:Hs; [done|].
  by rewrite dict_del_absent.
Qed.

Lemma close_browser_returns instance_id w :
  ∃ b, (close_browser instance_id w).1 = Return b.
Proof. rewrite close_browser_run. destruct (dict_get _ _); by eexists. Qed.

Lemma for_each_cons {A : Type} (a : A) (l : list A) (f : A → M unit) w :
  for_each (a :: l) f w =
    match f a w with
    | (Return _, w') => for_each l f w'
    | (Raise e, w') => (Raise e, w')
    end.
Proof. done. Qed.

Lemma close_one iid w :
  try_except (close_browser iid;; mret tt) (λ _, mret tt) w
  = (Return tt, (close_browser iid w).2).
Proof.
  unfold try_except, mbind, M_bind, mret, M_ret.
  destruct (close_browser_returns iid w) as [b Hb].
  destruct (close_browser iid w) as [r w1]. cbn in Hb. by subst r.
Qed.

Lemma close_each ids w :
  let out :=
    for_each ids (λ iid, try_except (close_browser iid;; mret tt) (λ _, mret tt)) w in
  out.1 = Return tt ∧
  ∀ k, k ∈ ids ∨ dict_get k (_instances w) = None →
       dict_get k (_instances out.2) = None.
Proof.
  revert w. induction ids as [|iid ids IH]; intros w; cbn zeta.
  - split; [done|]. intros k [Hin|Habs]; [by apply elem_of_nil in Hin | done].
  - rewrite for_each_cons, close_one.
    destruct (IH (close_browser iid w).2) as [Hret Habsent].
    split; [done|]. intros k Hk. apply Habsent.
    rewrite close_browser_instances.
    destruct Hk as [[->|Hin]%elem_of_cons|Habs].
    + right. apply dict_get_del_eq.
    + by left.
    + right. by apply dict_get_del_None.
Qed.

(** C8. [close_browser] returns false exactly when the id is absent from
    the registry; when the id is present the call returns true and the id
    is absent afterwards, also when the remote delete call raises; and
    [close_all] returns with every id that was tracked absent from the
    registry, whatever the replies of the service. *)
Theorem close_browser_removes instance_id w :
  let out := close_browser instance_id w in
  (out.1 = Return false ↔ dict_get instance_id (_instances w) = None) ∧
  (is_Some (dict_get instance_id (_instances w)) →
   out.1 = Return true ∧ dict_get instance_id (_instances out.2) = None) ∧
  (∀ s d, dict_get instance_id (_instances w) = Some s →
          remote (sent w) (close_request s) = Fails d →
          out.1 = Return true ∧ dict_get instance_id (_instances out.2) = None) ∧
  (close_all w).1 = Return tt ∧
  (∀ k, k ∈ dict_keys (_instances w) →
        dict_get k (_instances (close_all w).2) = None).
Proof.
  cbn zeta.
  assert (is_Some (dict_get instance_id (_instances w)) →
          (close_browser instance_id w).1 = Return true ∧
          dict_get instance_id (_instances (close_browser instance_id w).2) = None)
    as Hpresent.
  { intros [s Hs]. rewrite close_browser_instances, close_browser_run, Hs.
    split; [done | apply dict_get_del_eq]. }
  split.
  { rewrite close_browser_run.
    destruct (dict_get instance_id (_instances w)); by split. }
  split; [done|].
  split; [intros s d Hs _; by apply Hpresent|].
  unfold close_all, get_instances. unfold mbind at 1 3, M_bind at 1 3.
  destruct (close_each (dict_keys (_instances w)) w) as [Hret Habsent].
  split; [done|]. intros k Hk. apply Habsent. by left.
Qed.

(** ** Authenticated calls *)

Lemma authenticated_absent instance_id req failure w :
  dict_get (KStr instance_id) (_instances w) = None →
  rejected instance_id w (authenticated instance_id req failure w).
Proof. intros Habs. unfold rejected. unfold authenticated. unfold_ops. cbn. by rewrite Habs. Qed.

Lemma authenticated_found instance_id req failure w s :
  dict_get (KStr instance_id) (_instances w) = Some s →
  authenticated instance_id req failure w =
    let w' := with_sent (req s) (with_http OpenSession w) in
    match remote (sent w) (req s) with
    | Fails d => (Raise (ClientError d), w')
    | Responds st None => (Raise ContentTypeError, w')
    | Responds st (Some data) =>
        if st =? 200 then (Return data, w')
        else (Raise (Exception
                       (dict_get_or "error"
                          (JStr (failure +:+ string_of_Z st)) data)), w')
    end.
Proof. intros Hs. unfold authenticated. run w. Qed.

Lemma authenticated_dispatched instance_id req failure w s :
  dict_get (KStr instance_id) (_instances w) = Some s →
  dispatched (req s) failure w (authenticated instance_id req failure w).
Proof.
  intros Hs. rewrite (authenticated_found _ _ _ _ _ Hs). cbn zeta.
  unfold dispatched.
  destruct (remote (sent w) (req s)) as [d|st [data|]] eqn:Hreply.
  - repeat split; try done. by intros ? [= <-].
  - destruct (st =? 200) eqn:Hst.
    + apply Z.eqb_eq in Hst as ->. repeat split; try done.
      * by intros ? [= <-].
      * intros ? ? [= <- <-] ?. done.
    + apply Z.eqb_neq in Hst. repeat split; try done.
      * intros ? [= -> <-]. done.
      * by intros ? ? [= <- <-] ?.
  - repeat split; try done.
Qed.

(** X1. No command changes what the manager caches: whatever the reply,
    [send_command], and so [click], [type_text], [execute_script] and
    [press_key], leave the registry, every instance (its URL, title,
    state and last activity) and the clock as they were, and add at most
    one request to the log. *)
Theorem commands_leave_cache instance_id w :
  (∀ action params,
     let w' := (send_command instance_id action params w).2 in
     _instances w' = _instances w ∧ objects w' = objects w ∧
     clock_reads w' = clock_reads w ∧
     (length (sent w') ≤ S (length (sent w)))%nat) ∧
  (∀ selector, objects (click instance_id selector w).2 = objects w) ∧
  (∀ selector text human_like,
     objects (type_text instance_id selector text human_like w).2 = objects w) ∧
  (∀ script, objects (execute_script instance_id script w).2 = objects w) ∧
  (∀ key, objects (press_key instance_id key w).2 = objects w).
Proof.
  assert (∀ action params,
            let w' := (send_command instance_id action params w).2 in
            _instances w' = _instances w ∧ objects w' = objects w ∧
            clock_reads w' = clock_reads w ∧
            (length (sent w') ≤ S (length (sent w)))%nat) as Hframe.
  { intros action params.
    destruct (dict_get (KStr instance_id) (_instances w)) as [s|] eqn:Hs.
    - cbn zeta. rewrite (send_command_world _ _ _ _ _ Hs). cbn.
      rewrite length_app. cbn. repeat split; lia.
    - cbn zeta. rewrite send_command_absent by done. cbn. repeat split; lia. }
  split; [exact Hframe|].
  repeat split; intros; apply Hframe.
Qed.

(** ** Identity bundles *)

Lemma save_profile_authenticated instance_id name :
  save_profile instance_id name
  = authenticated instance_id (λ s, save_profile_request s name) "Save profile failed: ".
Proof. done. Qed.

Lemma load_profile_authenticated instance_id profile_id :
  load_profile instance_id profile_id
  = authenticated instance_id (λ s, load_profile_request s profile_id)
      "Load profile failed: ".
Proof. done. Qed.

Lemma list_profiles_authenticated instance_id :
  list_profiles instance_id
  = authenticated instance_id list_profiles_request "List profiles failed: ".
Proof. done. Qed.

Lemma delete_profile_authenticated profile_id instance_id :
  delete_profile profile_id instance_id
  = authenticated instance_id (λ s, delete_profile_request s profile_id)
      "Delete profile failed: ".
Proof. done. Qed.

(** X2. [save_profile] on an id that is not tracked raises the
    unknown-instance error and calls nothing. On a tracked id it issues
    exactly one call, a POST to the profile endpoint of the session with
    the bearer token of the record, whose body holds the name when one is
    given and is not empty, and is empty otherwise; a reply 200 returns
    the body, any other status raises the error of the body or
    ["Save profile failed: <status>"]; the registry and the instances are
    untouched. *)
Theorem save_profile_dispatch instance_id name w :
  (dict_get (KStr instance_id) (_instances w) = None →
   rejected instance_id w (save_profile instance_id name w)) ∧
  (∀ s, dict_get (KStr instance_id) (_instances w) = Some s →
   let req := save_profile_request s name in
   dispatched req "Save profile failed: " w (save_profile instance_id name w) ∧
   method req = POST ∧
   url req = fstring [Lit API_BASE; Lit "/v1/sessions/"; str_json (session_id s);
                      Lit "/profile"] ∧
   json_body req = Some (match name with
                         | Some n => if String.eqb n "" then [] else [("name", JStr n)]
                         | None => []
                         end) ∧
   dict_get "Authorization" (headers req)
   = Some (fstring [Lit "Bearer "; str_json (session_token s)])).
Proof.
  rewrite save_profile_authenticated. split.
  - apply authenticated_absent.
  - intros s Hs req.
    split; [apply (authenticated_dispatched _
                     (λ s, save_profile_request s name) _ _ _ Hs)|].
    split; [done|]. split; [done|]. split; [|done].
    subst req. unfold save_profile_request. cbn.
    destruct name as [n|]; [|done]. cbn. by destruct (String.eqb n "").
Qed.

(** X3. [load_profile] on an id that is not tracked raises the
    unknown-instance error and calls nothing. On a tracked id it issues
    exactly one call, a POST to the profile-load endpoint of the session
    with the bearer token of the record and the body
    [{"profile_id": profile_id}]; a reply 200 returns the body, any other
    status raises the error of the body or
    ["Load profile failed: <status>"]. *)
Theorem load_profile_dispatch instance_id profile_id w :
  (dict_get (KStr instance_id) (_instances w) = None →
   rejected instance_id w (load_profile instance_id profile_id w)) ∧
  (∀ s, dict_get (KStr instance_id) (_instances w) = Some s →
   let req := load_profile_request s profile_id in
   dispatched req "Load profile failed: " w (load_profile instance_id profile_id w) ∧
   method req = POST ∧
   url req = fstring [Lit API_BASE; Lit "/v1/sessions/"; str_json (session_id s);
                      Lit "/profile/load"] ∧
   json_body req = Some [("profile_id", JStr profile_id)] ∧
   dict_get "Authorization" (headers req)
   = Some (fstring [Lit "Bearer "; str_json (session_token s)])).
Proof.
  rewrite load_profile_authenticated. split.
  - apply authenticated_absent.
  - intros s Hs req.
    split; [apply (authenticated_dispatched _
                     (λ s, load_profile_request s profile_id) _ _ _ Hs)|].
    done.
Qed.

(** X4. Listing and deleting profiles are scoped to the account: on a
    tracked instance each issues exactly one call, a GET to
    [/v1/profiles] or a DELETE to [/v1/profiles/<profile_id>], without a
    body and with the [Authorization] header as its only header, so that
    the session id of the record is not used; on an instance that is not
    tracked each raises the unknown-instance error and calls nothing. *)
Theorem profiles_are_account_scoped instance_id profile_id w :
  (dict_get (KStr instance_id) (_instances w) = None →
   rejected instance_id w (list_profiles instance_id w) ∧
   rejected instance_id w (delete_profile profile_id instance_id w)) ∧
  (∀ s, dict_get (KStr instance_id) (_instances w) = Some s →
   dispatched
     {| method := GET; url := [Lit (API_BASE +:+ "/v1/profiles")];
        json_body := None;
        headers := [("Authorization", fstring [Lit "Bearer "; str_json (session_token s)])] |}
     "List profiles failed: " w (list_profiles instance_id w) ∧
   dispatched
     {| method := DELETE;
        url := [Lit (API_BASE +:+ "/v1/profiles/" +:+ profile_id)];
        json_body := None;
        headers := [("Authorization", fstring [Lit "Bearer "; str_json (session_token s)])] |}
     "Delete profile failed: " w (delete_profile profile_id instance_id w)).
Proof.
  rewrite list_profiles_authenticated, delete_profile_authenticated. split.
  - intros Habs. split; by apply authenticated_absent.
  - intros s Hs. split.
    + apply (authenticated_dispatched _ list_profiles_request _ _ _ Hs).
    + apply (authenticated_dispatched _
               (λ s, delete_profile_request s profile_id) _ _ _ Hs).
Qed.

(** ** More on dictionaries *)

Section DictKeys.
Context {K V : Type} `{EqDecision K}.
Implicit Types (k : K) (v : V) (d : list (K * V)).

Lemma dict_get_None k d : dict_get k d = None ↔ k ∉ dict_keys d.
Proof.
  unfold dict_keys. induction d as [|[k' v'] d IH]; simpl.
  - split; [intros _; apply not_elem_of_nil | done].
  - rewrite not_elem_of_cons. destruct (decide (k' = k)) as [->|Hne].
    + split; [done | by intros [? _]].
    + rewrite IH. split; [by intros ? | by intros [_ ?]].
Qed.

Lemma dict_get_set k k' v d :
  dict_get k' (dict_set k v d) = if decide (k = k') then Some v else dict_get k' d.
Proof.
  destruct (decide (k = k')) as [->|Hne].
  - apply dict_get_set_eq.
  - by apply dict_get_set_ne.
Qed.

Lemma dict_get_del k k' d :
  dict_get k' (dict_del k d) = if decide (k = k') then None else dict_get k' d.
Proof.
  destruct (decide (k = k')) as [->|Hne].
  - apply dict_get_del_eq.
  - by apply dict_get_del_ne.
Qed.

Lemma dict_keys_set k v d :
  dict_keys (dict_set k v d)
  = if decide (k ∈ dict_keys d) then dict_keys d else dict_keys d ++ [k].
Proof.
  unfold dict_keys. induction d as [|[k' v'] d IH].
  - cbn. destruct (decide (k ∈ [])) as [Hin|_]; [by apply elem_of_nil in Hin | done].
  - cbn [dict_set]. destruct (decide (k' = k)) as [->|Hne].
    + rewrite !fmap_cons. cbn [fst].
      destruct (decide (k ∈ k :: d.*1)) as [_|Hnin]; [done|].
      exfalso. apply Hnin. apply elem_of_cons. by left.
    + rewrite !fmap_cons, IH. cbn [fst].
      destruct (decide (k ∈ d.*1)) as [Hin|Hnin],
               (decide (k ∈ k' :: d.*1)) as [Hin'|Hnin']; try done.
      * exfalso. apply Hnin'. apply elem_of_cons. by right.
      * apply elem_of_cons in Hin' as [->|Hin']; done.
Qed.

Lemma NoDup_dict_set k v d :
  NoDup (dict_keys d) → NoDup (dict_keys (dict_set k v d)).
Proof.
  intros Hd. rewrite dict_keys_set. case_decide; [done|].
  apply NoDup_app. split; [done|]. split.
  - intros x Hx ->%list_elem_of_singleton. done.
  - apply NoDup_singleton.
Qed.

Lemma dict_keys_del k d : dict_keys (dict_del k d) = filter (λ x, x ≠ k) (dict_keys d).
Proof.
  unfold dict_keys, dict_del. induction d as [|[k' v'] d IH]; [done|].
  rewrite fmap_cons, !filter_cons. cbn [fst].
  destruct (decide (k' ≠ k)); [rewrite fmap_cons; cbn [fst]|]; by rewrite IH.
Qed.

Lemma NoDup_dict_del k d : NoDup (dict_keys d) → NoDup (dict_keys (dict_del k d)).
Proof. intros Hd. rewrite dict_keys_del. by apply NoDup_filter. Qed.

Lemma dict_del_head k v d : k ∉ dict_keys d → dict_del k ((k, v) :: d) = d.
Proof.
  intros Hk. unfold dict_del. rewrite filter_cons. simpl.
  rewrite decide_False by (intros ?; done).
  apply dict_del_absent. by apply dict_get_None.
Qed.

Lemma dict_all_absent d : (∀ k, k ∈ dict_keys d → dict_get k d = None) → d = [].
Proof.
  destruct d as [|[k v] d]; [done|]. intros Habs.
  assert (k ∈ dict_keys ((k, v) :: d)) as Hk by (apply elem_of_cons; by left).
  specialize (Habs k Hk). simpl in Habs.
  by rewrite decide_True in Habs.
Qed.
End DictKeys.

(** ** Closing everything *)

Lemma close_browser_world instance_id w s :
  dict_get instance_id (_instances w) = Some s →
  (close_browser instance_id w).2
  = with_instances (dict_del instance_id)
      (with_sent (close_request s) (with_http OpenSession w)).
Proof. intros Hs. by rewrite close_browser_run, Hs. Qed.

Lemma close_each_sent d w :
  _instances w = d →
  NoDup (dict_keys d) →
  let out :=
    for_each (dict_keys d)
      (λ iid, try_except (close_browser iid;; mret tt) (λ _, mret tt)) w in
  sent out.2 = sent w ++ (close_request <$> d.*2) ∧
  _instances out.2 = [] ∧
  objects out.2 = objects w.
Proof.
  revert w. induction d as [|[k s] d IH]; intros w Hd Hnodup; cbn zeta.
  - cbn. by rewrite app_nil_r.
  - cbn [dict_keys fmap list_fmap fst] in *.
    apply NoDup_cons in Hnodup as [Hk Hnodup].
    change ((k, s).1 :: d.*1) with (k :: dict_keys d).
    rewrite for_each_cons, close_one. cbv beta iota.
    assert (dict_get k (_instances w) = Some s) as Hs.
    { rewrite Hd. simpl. by rewrite decide_True. }
    rewrite (close_browser_world _ _ _ Hs).
    set (w1 := with_instances (dict_del k)
                 (with_sent (close_request s) (with_http OpenSession w))).
    assert (_instances w1 = d) as Hd1.
    { subst w1. cbn. rewrite Hd. by apply dict_del_head. }
    destruct (IH w1 Hd1 Hnodup) as (Hsent & Hreg & Hobjs).
    unfold dict_keys in *. split; [|by split].
    rewrite Hsent. subst w1. cbn. by rewrite <- app_assoc.
Qed.

(** X5. [close_all] returns; afterwards the registry is empty, one
    DELETE request has been sent for each record that was tracked, in the
    order in which the records were stored, each to the session of its
    record and with its token, whatever the replies; and no instance
    object is touched. *)
Theorem close_all_sends_one_delete_each w :
  NoDup (dict_keys (_instances w)) →
  let out := close_all w in
  out.1 = Return tt ∧
  _instances out.2 = [] ∧
  sent out.2 = sent w ++ (close_request <$> (_instances w).*2) ∧
  objects out.2 = objects w.
Proof.
  intros Hnodup. cbn zeta.
  unfold close_all, get_instances. unfold mbind at 1 2 3 4, M_bind at 1 2 3 4.
  destruct (close_each (dict_keys (_instances w)) w) as [Hret _].
  destruct (close_each_sent (_instances w) w eq_refl Hnodup) as (Hsent & Hreg & Hobjs).
  done.
Qed.

Lemma close_all_empties w :
  (close_all w).1 = Return tt ∧ _instances (close_all w).2 = [].
Proof.
  unfold close_all, get_instances. unfold mbind at 1 2, M_bind at 1 2.
  destruct (close_each (dict_keys (_instances w)) w) as [Hret Habs].
  split; [done|]. cbn zeta in Habs.
  set (w' := (for_each _ _ w).2) in *.
  apply dict_all_absent. intros k Hk.
  destruct (decide (k ∈ dict_keys (_instances w))) as [Hin|Hnin].
  - apply Habs. by left.
  - apply Habs. right. by apply dict_get_None.
Qed.

Lemma close_all_nothing w :
  _instances w = [] → close_all w = (Return tt, w).
Proof.
  intros Hw. unfold close_all, get_instances. unfold mbind, M_bind.
  by rewrite Hw.
Qed.

Lemma cleanup_effect w :
  (cleanup w).1 = Return tt ∧ _instances (cleanup w).2 = [] ∧
  _http (cleanup w).2 ≠ OpenSession.
Proof.
  unfold cleanup. unfold mbind, M_bind.
  destruct (close_all_empties w) as [Hret Hreg].
  destruct (close_all w) as [r w1]. cbn in Hret, Hreg. subst r.
  unfold close_http. destruct w1 as [reg http objs log ticks]. cbn in *.
  by destruct http.
Qed.

(** X6. [cleanup] returns, whatever the replies of the service; it
    leaves the registry empty and the client closed when there was one;
    and a second [cleanup] changes nothing and calls nothing. *)
Theorem cleanup_is_final w :
  let out := cleanup w in
  out.1 = Return tt ∧
  _instances out.2 = [] ∧
  _http out.2 ≠ OpenSession ∧
  cleanup out.2 = (Return tt, out.2).
Proof.
  cbn zeta. destruct (cleanup_effect w) as (Hret & Hreg & Hhttp).
  split; [done|]. split; [done|]. split; [done|].
  unfold cleanup at 1. unfold mbind, M_bind.
  rewrite (close_all_nothing _ Hreg). unfold close_http.
  by destruct (_http (cleanup w).2).
Qed.

(** ** Soundness of the registry *)

Lemma objects_kept_refl w w' : objects w' = objects w → objects_kept w w'.
Proof. intros Hobjs l o Ho. rewrite Hobjs. by exists o. Qed.

Lemma objects_kept_app w w' o : objects w' = objects w ++ [o] → objects_kept w w'.
Proof.
  intros Hobjs l o0 Ho. rewrite Hobjs. exists o0.
  split; [by apply lookup_app_l_Some | done].
Qed.

Lemma objects_kept_alter w w' f l :
  (∀ o, instance_id (f o) = instance_id o) →
  objects w' = alter f l (objects w) → objects_kept w w'.
Proof.
  intros Hf Hobjs l0 o Ho. rewrite Hobjs.
  destruct (decide (l = l0)) as [->|Hne].
  - exists (f o). rewrite list_lookup_alter_eq, Ho. by split.
  - exists o. rewrite list_lookup_alter_ne by done. by split.
Qed.

Lemma record_ok_kept w w' k s : objects_kept w w' → record_ok w k s → record_ok w' k s.
Proof.
  intros Hkept [(o & Ho & Hid) Hsid]. split; [|done].
  destruct (Hkept _ _ Ho) as (o' & Ho' & Hid'). exists o'. by rewrite Hid'.
Qed.

Lemma registry_ok_same w w' :
  _instances w' = _instances w → objects_kept w w' → registry_ok w → registry_ok w'.
Proof.
  intros Hreg Hkept [Hnodup Hok]. split; rewrite Hreg; [done|].
  intros k s Hs. by apply (record_ok_kept w), Hok.
Qed.

Lemma registry_ok_del w w' k :
  _instances w' = dict_del k (_instances w) → objects_kept w w' →
  registry_ok w → registry_ok w'.
Proof.
  intros Hreg Hkept [Hnodup Hok]. split; rewrite Hreg.
  - by apply NoDup_dict_del.
  - intros k' s. rewrite dict_get_del. case_decide; [done|].
    intros Hs. by apply (record_ok_kept w), Hok.
Qed.

Lemma registry_ok_set w w' k s :
  _instances w' = dict_set k s (_instances w) → objects_kept w w' →
  record_ok w' k s → registry_ok w → registry_ok w'.
Proof.
  intros Hreg Hkept Hnew [Hnodup Hok]. split; rewrite Hreg.
  - by apply NoDup_dict_set.
  - intros k' s'. rewrite dict_get_set. case_decide as Hk.
    + intros [= <-]. by subst k'.
    + intros Hs. by apply (record_ok_kept w), Hok.
Qed.

Lemma registry_ok_empty w : _instances w = [] → registry_ok w.
Proof. intros Hreg. split; rewrite Hreg; [apply NoDup_nil_2 | done]. Qed.

(** What [spawn_browser] does to the objects and to the registry. *)
Lemma spawn_browser_effect options w :
  let w' := (spawn_browser options w).2 in
  let l := length (objects w) in
  ∃ o, objects w' = objects w ++ [o] ∧
       (_instances w' = _instances w ∨
        (∃ data,
           _instances w'
           = dict_set (KStr "payment_required") (payment_session l data) (_instances w) ∧
           instance_id o = JStr "payment_required") ∨
        (∃ data k,
           let session_id := json_get "session_id" data in
           hash_key session_id = Some k ∧
           _instances w'
           = dict_set k
               (created_session l session_id
                  (dict_get_or "session_token" session_id data) data)
               (_instances w) ∧
           instance_id o = session_id)).
Proof.
  cbn zeta. rewrite spawn_browser_run. cbn zeta.
  destruct (remote (sent w) (creation_request options)) as [d|st [data|]].
  - eexists. split; [|by left].
    unfold failed, requested. cbn. by rewrite alter_last.
  - destruct (st =? 402).
    + destruct (PaymentRequiredError_init data); eexists;
        (split; [|right; left; exists data; split; [reflexivity|]]);
        unfold failed, payment_recorded, requested; cbn;
        rewrite ?alter_last; reflexivity.
    + destruct ((st =? 200) || (st =? 201)).
      * destruct (hash_key (json_get "session_id" data)) as [k|] eqn:Hk.
        -- eexists. split; [|right; right; exists data, k; split; [done|split; [reflexivity|]]];
             unfold readied, requested; cbn; rewrite ?alter_last; reflexivity.
        -- eexists. split; [|by left].
           unfold failed, readied, requested. cbn. by rewrite !alter_last.
      * eexists. split; [|by left].
        unfold failed, requested. cbn. by rewrite alter_last.
  - eexists. split; [|by left].
    unfold failed, requested. cbn. by rewrite alter_last.
Qed.

Lemma registry_ok_spawn options w :
  registry_ok w → registry_ok (spawn_browser options w).2.
Proof.
  intros Hok.
  destruct (spawn_browser_effect options w) as (o & Hobjs & Hreg).
  pose proof (objects_kept_app _ _ _ Hobjs) as Hkept.
  assert (objects (spawn_browser options w).2 !! length (objects w) = Some o) as Ho.
  { rewrite Hobjs. by apply list_lookup_middle. }
  destruct Hreg as [Hreg | [(data & Hreg & Hid) | (data & k & Hk & Hreg & Hid)]].
  - by apply (registry_ok_same w).
  - apply (registry_ok_set w _ _ _ Hreg Hkept); [|done]. split.
    + exists o. split; [done|]. by rewrite Hid.
    + right. done.
  - apply (registry_ok_set w _ _ _ Hreg Hkept); [|done]. split.
    + exists o. split; [done|]. by rewrite Hid.
    + left. done.
Qed.

Lemma authenticated_frame instance_id req failure w :
  _instances (authenticated instance_id req failure w).2 = _instances w ∧
  objects (authenticated instance_id req failure w).2 = objects w.
Proof.
  destruct (dict_get (KStr instance_id) (_instances w)) as [s|] eqn:Hs.
  - destruct (authenticated_dispatched _ req failure _ _ Hs) as (_ & ? & ? & _). done.
  - by rewrite (authenticated_absent _ req failure _ Hs).
Qed.

Lemma send_command_authenticated instance_id action params :
  send_command instance_id action params
  = authenticated instance_id (λ s, command_request s action params) "Command failed: ".
Proof. done. Qed.

Lemma navigated_keeps_id url result t o :
  instance_id (navigated url result t o) = instance_id o.
Proof. done. Qed.

(** The run of [navigate]. *)
Lemma navigate_run instance_id url wait_until w :
  navigate instance_id url wait_until w =
    let params := Some [("url", JStr url); ("wait_until", JStr wait_until)] in
    match dict_get (KStr instance_id) (_instances w) with
    | None =>
        (Raise (Exception (JStr ("No browser instance: " +:+ instance_id))), w)
    | Some s =>
        let req := command_request s "navigate" params in
        let w' := with_sent req (with_http OpenSession w) in
        match remote (sent w) req with
        | Fails d => (Raise (ClientError d), w')
        | Responds st None => (Raise ContentTypeError, w')
        | Responds st (Some data) =>
            if st =? 200 then
              (Return data,
               with_objects
                 (alter (navigated url data (now (clock_reads w))) (instance s))
                 (with_tick w'))
            else (Raise (Exception
                           (dict_get_or "error"
                              (JStr ("Command failed: " +:+ string_of_Z st)) data)), w')
        end
    end.
Proof.
  cbn zeta. unfold navigate. unfold mbind at 1, M_bind at 1.
  destruct (dict_get (KStr instance_id) (_instances w)) as [s|] eqn:Hs.
  - rewrite (send_command_found _ _ _ _ _ Hs). cbn zeta.
    destruct (remote _ _) as [|st [data|]]; [done| |done].
    destruct (st =? 200); [|done].
    unfold_ops. cbn. rewrite Hs. cbn. f_equal.
    destruct w as [reg http objs log ticks]. unfold with_objects, with_tick. cbn.
    f_equal. rewrite !list_alter_alter_eq. apply list_alter_ext; [|done].
    intros o _. apply navigated_steps.
  - by rewrite send_command_absent.
Qed.

Lemma navigate_effect instance_id url wait_until w :
  let w' := (navigate instance_id url wait_until w).2 in
  _instances w' = _instances w ∧
  (objects w' = objects w ∨
   ∃ result s,
     dict_get (KStr instance_id) (_instances w) = Some s ∧
     objects w'
     = alter (navigated url result (now (clock_reads w))) (instance s) (objects w)).
Proof.
  cbn zeta. rewrite navigate_run. cbn zeta.
  destruct (dict_get (KStr instance_id) (_instances w)) as [s|] eqn:Hs;
    [|split; [done | by left]].
  destruct (remote _ _) as [|st [data|]]; try (split; [done | by left]).
  destruct (st =? 200); [|split; [done | by left]].
  split; [done|]. right. by exists data, s.
Qed.

Lemma close_browser_objects instance_id w :
  objects (close_browser instance_id w).2 = objects w.
Proof. rewrite close_browser_run. by destruct (dict_get _ _). Qed.

Lemma registry_ok_authenticated id req failure w :
  registry_ok w → registry_ok (authenticated id req failure w).2.
Proof.
  intros Hok. destruct (authenticated_frame id req failure w).
  apply (registry_ok_same w); [done | by apply objects_kept_refl | done].
Qed.

Lemma registry_ok_after c w : registry_ok w → registry_ok (after c w).
Proof.
  intros Hok.
  destruct c as [options | id action params | id url wait_until | id name
                | id profile_id | id | profile_id id | k | | ]; cbn [after].
  - by apply registry_ok_spawn.
  - rewrite send_command_authenticated. by apply registry_ok_authenticated.
  - destruct (navigate_effect id url wait_until w) as [Hreg Hobjs].
    apply (registry_ok_same w); [done| |done].
    destruct Hobjs as [Hobjs | (result & s & _ & Hobjs)].
    + by apply objects_kept_refl.
    + eapply objects_kept_alter; [|exact Hobjs]. intros o. apply navigated_keeps_id.
  - rewrite save_profile_authenticated. by apply registry_ok_authenticated.
  - rewrite load_profile_authenticated. by apply registry_ok_authenticated.
  - rewrite list_profiles_authenticated. by apply registry_ok_authenticated.
  - rewrite delete_profile_authenticated. by apply registry_ok_authenticated.
  - apply (registry_ok_del w _ k); [apply close_browser_instances| |done].
    apply objects_kept_refl, close_browser_objects.
  - apply registry_ok_empty. apply close_all_empties.
  - apply registry_ok_empty.
    destruct (cleanup_effect w) as (_ & Hreg & _). exact Hreg.
Qed.

Lemma reached_snoc calls c : reached (calls ++ [c]) = after c (reached calls).
Proof. unfold reached. by rewrite foldl_app. Qed.

Lemma registry_stays_sound_lemma calls : registry_ok (reached calls).
Proof.
  induction calls as [|c calls IH] using rev_ind.
  - by apply registry_ok_empty.
  - rewrite reached_snoc. by apply registry_ok_after.
Qed.

(** X7. In every state a new manager reaches by calls to its
    operations, whatever the replies of the service, the registry holds
    each key once, the instance of every record exists and carries the
    key of the record as its id, and the session id of every record is
    its key, the sentinel record with its null session id and token
    excepted. *)
Theorem registry_stays_sound calls :
  let w := reached calls in
  NoDup (dict_keys (_instances w)) ∧
  ∀ k s, dict_get k (_instances w) = Some s →
         (∃ o, objects w !! instance s = Some o ∧ hash_key (instance_id o) = Some k) ∧
         (hash_key (session_id s) = Some k ∨
          (k = KStr "payment_required" ∧ session_id s = JNull ∧
           session_token s = JNull)).
Proof. apply registry_stays_sound_lemma. Qed.

Lemma hash_key_KStr v id : hash_key v = Some (KStr id) → v = JStr id.
Proof. destruct v; cbn; intros ?; by simplify_eq. Qed.

(** X8. In every state a new manager reaches by calls to its
    operations, a command dispatched to a tracked id other than the
    sentinel is posted to the command endpoint of that very id, and the
    instance [get_instance] gives for a tracked id carries that id. *)
Theorem commands_reach_their_session calls id s :
  dict_get (KStr id) (_instances (reached calls)) = Some s →
  (id ≠ "payment_required" →
   ∀ action params,
     sent (send_command id action params (reached calls)).2
     = sent (reached calls) ++ [command_request s action params] ∧
     url (command_request s action params)
     = [Lit (API_BASE +:+ "/v1/sessions/" +:+ id +:+ "/command")]) ∧
  get_instance id (reached calls) = (Return (Some (instance s)), reached calls) ∧
  ∃ o, objects (reached calls) !! instance s = Some o ∧
       instance_id o = JStr id.
Proof.
  intros Hs.
  destruct (registry_stays_sound_lemma calls) as [_ Hok].
  destruct (Hok _ _ Hs) as [(o & Ho & Hid) Hsid].
  split; [|split].
  - intros Hne action params.
    split; [by rewrite (send_command_world _ _ _ _ _ Hs)|].
    destruct Hsid as [Hsid | (Hk & _)]; [|by simplify_eq].
    apply hash_key_KStr in Hsid. unfold command_request. cbn. by rewrite Hsid.
  - unfold get_instance, get_instances. unfold mbind, M_bind, mret, M_ret.
    by rewrite Hs.
  - exists o. split; [done|]. by apply hash_key_KStr.
Qed.

(** ** Outcomes of a creation *)

Lemma PaymentRequiredError_init_carries data e :
  PaymentRequiredError_init data = Return e →
  ∃ message, e = PaymentRequiredError data message.
Proof.
  unfold PaymentRequiredError_init, mbind, result_bind.
  destruct (py_iter _) as [ns|]; [|done].
  destruct (result_map _ _) as [lines|]; [|done].
  destruct (PaymentRequiredError_price_usd data) as [price_usd|]; [|done].
  intros [= <-]. by eexists.
Qed.

Lemma objects_payment_recorded options data w :
  objects (payment_recorded options data w)
  = objects w ++ [set_instance_id (JStr "payment_required")
                    (set_state ERROR
                       (pending_instance options (now (clock_reads w))
                          (now (S (clock_reads w)))))].
Proof. unfold payment_recorded, requested. cbn. by rewrite !alter_last. Qed.

(** X9. [PaymentRequiredError] comes from a reply 402 and from nothing
    else: when [spawn_browser] raises it, the reply was a 402, the error
    carries the body of that reply, the sentinel record holding that body
    is stored, and the pending instance is left with the id
    ["payment_required"] in the state [ERROR]; and no command raises it. *)
Theorem payment_required_only_from_402 options w e :
  (spawn_browser options w).1 = Raise e →
  is_PaymentRequiredError e = true →
  let w' := (spawn_browser options w).2 in
  let l := length (objects w) in
  (∃ data message,
     remote (sent w) (creation_request options) = Responds 402 (Some data) ∧
     e = PaymentRequiredError data message ∧
     dict_get (KStr "payment_required") (_instances w') = Some (payment_session l data) ∧
     ∃ o, objects w' !! l = Some o ∧
          instance_id o = JStr "payment_required" ∧ state o = ERROR) ∧
  (∀ id action params e',
     (send_command id action params w).1 = Raise e' →
     is_PaymentRequiredError e' = false).
Proof.
  intros Hraise He. cbn zeta. split.
  - destruct (spawn_browser options w) as [r w1] eqn:Hrun. cbn in Hraise. subst r.
    destruct (spawn_browser_payment _ _ _ _ Hrun He) as (data & Hreply & Hinit & ->).
    destruct (PaymentRequiredError_init_carries _ _ Hinit) as [message ->].
    exists data, message. split; [done|]. split; [done|].
    split; [apply sentinel_stored|]. cbn [snd].
    eexists. rewrite objects_payment_recorded. split; [by apply list_lookup_middle|].
    done.
  - intros id action params e'.
    destruct (dict_get (KStr id) (_instances w)) as [s|] eqn:Hs.
    + rewrite (send_command_found _ _ _ _ _ Hs). cbn zeta.
      destruct (remote _ _) as [|st [data|]]; cbn; try by intros [= <-].
      destruct (st =? 200); cbn; by intros [= <-].
    + rewrite send_command_absent by done. cbn. by intros [= <-].
Qed.

(** X10. A creation that fails on anything but a reply 402 stores
    nothing: when [spawn_browser] raises and the reply was not a 402 with
    a body, be it a transport failure, an unreadable body, a status other
    than 200 and 201 or an unhashable session id, the error is the
    generic creation failure, the registry is as it was, and the pending
    instance is left in the state [ERROR]. *)
Theorem failed_creation_stores_nothing options w e :
  (spawn_browser options w).1 = Raise e →
  (∀ data, remote (sent w) (creation_request options) ≠ Responds 402 (Some data)) →
  let w' := (spawn_browser options w).2 in
  (∃ cause, e = creation_failure cause ∧ is_PaymentRequiredError cause = false) ∧
  _instances w' = _instances w ∧
  ∃ o, objects w' = objects w ++ [o] ∧ state o = ERROR.
Proof.
  cbn zeta. rewrite spawn_browser_run. cbn zeta. intros Hraise Hnot.
  destruct (remote (sent w) (creation_request options)) as [d|st [data|]].
  - cbn in *. simplify_eq. split; [by eexists|]. split; [done|].
    eexists. unfold failed, requested. cbn. by rewrite alter_last.
  - destruct (st =? 402) eqn:Hst.
    { apply Z.eqb_eq in Hst as ->. by destruct (Hnot data). }
    destruct ((st =? 200) || (st =? 201)).
    + destruct (hash_key (json_get "session_id" data)); [done|].
      cbn in *. simplify_eq. split; [by eexists|]. split; [done|].
      eexists. unfold failed, readied, requested. cbn. by rewrite !alter_last.
    + cbn in *. simplify_eq. split; [by eexists|]. split; [done|].
      eexists. unfold failed, requested. cbn. by rewrite alter_last.
  - cbn in *. simplify_eq. split; [by eexists|]. split; [done|].
    eexists. unfold failed, requested. cbn. by rewrite alter_last.
Qed.

(** X11. The headers of a creation request: [Content-Type] is always
    there; [Payment-Signature] is the signature of the options when it is
    given and not empty, otherwise the variable [PAYMENT_SIGNATURE] of the
    environment when it is set and not empty, and is absent otherwise;
    [X-Internal-Key] is the variable [BROWSER_INTERNAL_KEY] when it is set
    and not empty, whatever the signature. *)
Theorem creation_headers_precedence options :
  let pick (o : option string) : option pystr :=
    match o with
    | Some s => if String.eqb s "" then None else Some [Lit s]
    | None => None
    end in
  let headers := creation_headers options in
  dict_get "Content-Type" headers = Some [Lit "application/json"] ∧
  dict_get "Payment-Signature" headers
  = match pick (payment_signature options) with
    | Some sig => Some sig
    | None => pick (environ "PAYMENT_SIGNATURE")
    end ∧
  dict_get "X-Internal-Key" headers = pick (environ "BROWSER_INTERNAL_KEY").
Proof.
  cbn zeta. unfold creation_headers, truthy_str.
  destruct (payment_signature options) as [sig|];
    destruct (environ "PAYMENT_SIGNATURE") as [env|];
    destruct (environ "BROWSER_INTERNAL_KEY") as [key|]; cbn;
    repeat match goal with
           | H : String.eqb ?x "" = _ |- context [String.eqb ?x ""] => rewrite H; cbn
           | |- context [String.eqb ?x ""] => destruct (String.eqb x "") eqn:?; cbn
           end;
    repeat split; reflexivity.
Qed.

(** ** The tools *)

Lemma dict_get_update {K V : Type} `{EqDecision K} (k : K) (d e : list (K * V)) :
  NoDup (dict_keys e) →
  dict_get k (dict_update d e)
  = match dict_get k e with Some v => Some v | None => dict_get k d end.
Proof.
  unfold dict_update. revert d. induction e as [|[k0 v0] e IH]; intros d Hnodup; [done|].
  cbn [fold_left dict_keys fmap list_fmap fst snd] in *.
  apply NoDup_cons in Hnodup as [Hk0 Hnodup].
  rewrite IH by done. cbn [dict_get fst snd]. rewrite dict_get_set.
  destruct (decide (k0 = k)) as [->|Hne]; [|done].
  apply dict_get_None in Hk0. by rewrite Hk0.
Qed.

Lemma with_success_get body k :
  NoDup (dict_keys body) →
  dict_get k (with_success body)
  = if decide (k = "success") then Some (default (JBool true) (dict_get "success" body))
    else dict_get k body.
Proof.
  intros Hnodup. unfold with_success. rewrite dict_get_update by done.
  destruct (decide (k = "success")) as [->|Hne].
  - by destruct (dict_get "success" body).
  - destruct (dict_get k body); [done|]. cbn. by rewrite decide_False.
Qed.

(** X12. The tools [click_element], [type_text], [paste_text],
    [press_key] and [clear_cookies] pass on what the manager does: an
    error is raised as it is, and a reply is returned with all its fields
    and with ["success": True], unless the reply has a field ["success"]
    of its own, which is then the one returned. *)
Theorem tools_add_success :
  (∀ id selector, passes_on with_success (click_element id selector) (click id selector)) ∧
  (∀ id selector text human_like,
     passes_on with_success (tool_type_text id selector text human_like)
       (type_text id selector text human_like)) ∧
  (∀ id selector text,
     passes_on with_success (paste_text id selector text)
       (type_text id selector text false)) ∧
  (∀ id key, passes_on with_success (tool_press_key id key) (press_key id key)) ∧
  (∀ id, passes_on with_success (tool_clear_cookies id) (clear_cookies id)) ∧
  (∀ body, NoDup (dict_keys body) →
     ∀ k, dict_get k (with_success body)
          = if decide (k = "success")
            then Some (default (JBool true) (dict_get "success" body))
            else dict_get k body).
Proof.
  repeat split; try (intros; intros w; unfold click_element, tool_type_text,
    paste_text, tool_press_key, tool_clear_cookies, mbind, M_bind, mret, M_ret;
    by destruct (_ w) as [[?|?] ?]).
  intros body Hnodup k. by apply with_success_get.
Qed.

(** X13. A parameter named ["action"] replaces the action of a command:
    the body sent holds under ["action"] the value of that parameter when
    there is one and the name of the action otherwise, and holds every
    other parameter as given. The operations of the manager pass no such
    parameter: [type_text], for one, sends the action ["type_slow"] when
    [human_like] is set and ["type"] otherwise, with the selector and the
    text. *)
Theorem params_can_replace_the_action action p :
  NoDup (dict_keys p) →
  dict_get "action" (command_body action (Some p))
  = Some (default (JStr action) (dict_get "action" p)) ∧
  (∀ k, k ≠ "action" → dict_get k (command_body action (Some p)) = dict_get k p) ∧
  (∀ id selector text human_like w s,
     dict_get (KStr id) (_instances w) = Some s →
     ∃ req,
       sent (type_text id selector text human_like w).2 = sent w ++ [req] ∧
       json_body req
       = Some [("action", JStr (if human_like then "type_slow" else "type"));
               ("selector", JStr selector); ("text", JStr text)]).
Proof.
  intros Hnodup. rewrite command_body_merge.
  change (default [] (Some p)) with p.
  split; [|split].
  - rewrite dict_get_update by done.
    destruct (dict_get "action" p); [done | reflexivity].
  - intros k Hk. rewrite dict_get_update by done.
    destruct (dict_get k p); [done|]. cbn. by rewrite decide_False.
  - intros id selector text human_like w s Hs. eexists.
    unfold type_text. rewrite (send_command_world _ _ _ _ _ Hs).
    split; [done|]. by destruct human_like.
Qed.

(** X14. [scroll_page] reads the amount before anything else, so that an
    amount that is not a number raises [ValueError] without a call, also
    for the directions that ignore it. With a number [n], the directions
    other than ["top"] and ["bottom"] scroll by [(0, -n)] for ["up"],
    [(-n, 0)] for ["left"], [(n, 0)] for ["right"] and [(0, n)] for
    ["down"] and for every other direction, and return the reply with the
    success flag, the direction and the amount. *)
Theorem scroll_page_directions id direction amount w :
  (∀ s, amount = StrArg s → int_of_str s = None →
        scroll_page id direction amount w = (Raise ValueError, w)) ∧
  (∀ n, py_int amount = Return n → direction ≠ "top" → direction ≠ "bottom" →
     let x := if decide (direction = "right") then n
              else if decide (direction = "left") then - n else 0 in
     let y := if decide (direction = "up") then - n
              else if decide (direction = "left" ∨ direction = "right") then 0
              else n in
     scroll_page id direction amount w =
       match scroll id x y w with
       | (Return body, w') =>
           (Return (dict_update
                      [("success", JBool true); ("direction", JStr direction);
                       ("amount", JInt n)] body), w')
       | (Raise e, w') => (Raise e, w')
       end).
Proof.
  split.
  - intros s -> Hs. unfold scroll_page, py_int, lift. unfold mbind at 1, M_bind at 1.
    by rewrite Hs.
  - intros n Hn Htop Hbottom. cbn zeta.
    unfold scroll_page, lift. unfold mbind at 1, M_bind at 1. rewrite Hn.
    rewrite (decide_False (P := direction = "top")) by done.
    rewrite (decide_False (P := direction = "bottom")) by done.
    unfold mbind, M_bind, mret, M_ret.
    assert (dict_get_or direction (0, n)
              [("down", (0, n)); ("up", (0, - n)); ("right", (n, 0)); ("left", (- n, 0))]
            = (if decide (direction = "right") then n
               else if decide (direction = "left") then - n else 0,
               if decide (direction = "up") then - n
               else if decide (direction = "left" ∨ direction = "right") then 0
               else n)) as ->; [|done].
    unfold dict_get_or. cbn [dict_get].
    destruct (decide ("down" = direction)) as [<-|Hdown]; [done|].
    destruct (decide ("up" = direction)) as [<-|Hup]; [done|].
    destruct (decide ("right" = direction)) as [<-|Hright]; [done|].
    destruct (decide ("left" = direction)) as [<-|Hleft]; [done|].
    cbn. rewrite !decide_False; try done; try (intros ->; done).
    intros [-> | ->]; done.
Qed.

Lemma dict_set_nonempty {K V : Type} `{EqDecision K} (k : K) (v : V) (d : list (K * V)) :
  dict_set k v d ≠ [].
Proof. destruct d as [|[k' v'] d]; cbn; [done|]. by case_decide. Qed.

(** X15. [set_local_storage] of the tools calls nothing and returns a
    failure when there is nothing to set, that is when the items are
    missing or empty and the key or the value is missing. With a key and
    a value, the items sent hold the value under the key, in place of what
    the items held there, and every other item as given. *)
Theorem set_local_storage_needs_items id items key value w :
  (default [] items = [] → key = None ∨ value = None →
   tool_set_local_storage id items key value w
   = (Return [("success", JBool false);
              ("error", JStr "Provide items dict or key+value pair")], w)) ∧
  (∀ k v s, key = Some k → value = Some v →
     dict_get (KStr id) (_instances w) = Some s →
     ∃ stored,
       sent (tool_set_local_storage id items key value w).2
       = sent w ++ [command_request s "set_local_storage"
                      (Some [("items", JDict stored)])] ∧
       dict_get k stored = Some (JStr v) ∧
       ∀ k', k' ≠ k → dict_get k' stored = dict_get k' (default [] items)).
Proof.
  split.
  - intros Hitems Hmissing. unfold tool_set_local_storage. rewrite Hitems.
    by destruct key, value, Hmissing.
  - intros k v s -> -> Hs. exists (dict_set k (JStr v) (default [] items)).
    unfold tool_set_local_storage.
    assert (truthy (JDict (dict_set k (JStr v) (default [] items))) = true) as ->.
    { pose proof (dict_set_nonempty k (JStr v) (default [] items)).
      cbn. by destruct (dict_set k (JStr v) (default [] items)). }
    cbn [negb]. unfold set_local_storage, mbind, M_bind, mret, M_ret.
    pose proof (send_command_world id "set_local_storage"
                  (Some [("items", JDict (dict_set k (JStr v) (default [] items)))])
                  w s Hs) as Hw.
    destruct (send_command _ _ _ w) as [[body|e] w1]; cbn in Hw; subst w1;
      (split; [done|]); (split; [apply dict_get_set_eq|]);
      intros k' Hk'; by apply dict_get_set_ne.
Qed.

(** X16. [execute_script] of the tools never raises: it leaves the state
    the manager leaves, returns the field ["result"] of the reply with
    the success flag set when the command succeeded, and returns the
    error with the flag unset when it failed, as it does, without a call,
    for an instance that is not tracked. *)
Theorem tool_execute_script_never_raises id script w :
  let out := tool_execute_script id script w in
  let run := execute_script id script w in
  out.2 = run.2 ∧
  out.1 = Return match run.1 with
                 | Return body =>
                     {| script_success := true;
                        script_result := json_get "result" body;
                        script_error := None |}
                 | Raise e =>
                     {| script_success := false; script_result := JNull;
                        script_error := Some e |}
                 end ∧
  (dict_get (KStr id) (_instances w) = None →
   out = (Return {| script_success := false; script_result := JNull;
                    script_error :=
                      Some (Exception (JStr ("No browser instance: " +:+ id))) |}, w)).
Proof.
  cbn zeta. unfold tool_execute_script, try_except, mbind, M_bind, mret, M_ret.
  split; [|split].
  - by destruct (execute_script id script w) as [[body|e] w1].
  - by destruct (execute_script id script w) as [[body|e] w1].
  - intros Habs. unfold execute_script. by rewrite send_command_absent.
Qed.

(** X17. Closing an instance twice: [close_instance] reports whether the
    id was tracked, and a second [close_instance] of the same id reports
    a failure, changes nothing and calls nothing. *)
Theorem close_instance_twice id w :
  let first := close_instance id w in
  first.1 = Return [("success",
                     JBool (bool_decide (is_Some (dict_get (KStr id) (_instances w)))));
                    ("instance_id", JStr id)] ∧
  close_instance id first.2
  = (Return [("success", JBool false); ("instance_id", JStr id)], first.2).
Proof.
  cbn zeta. unfold close_instance, mbind, M_bind, mret, M_ret.
  pose proof (close_browser_instances (KStr id) w) as Hreg.
  rewrite (close_browser_run (KStr id) w) in *.
  destruct (dict_get (KStr id) (_instances w)) as [s|] eqn:Hs; cbn [fst snd] in *.
  - split; [done|]. rewrite close_browser_run, Hreg, dict_get_del_eq. done.
  - split; [done|]. by rewrite close_browser_run, Hs.
Qed.

(** ** The tool [spawn_browser] *)

Lemma network_entries ns lines :
  result_map network_line ns = Return lines →
  ∃ entries, result_map network_entry ns = Return entries ∧
             Forall2 entry_of ns entries.
Proof.
  revert lines. induction ns as [|n ns IH]; intros lines; cbn.
  - intros _. exists []. split; [done | constructor].
  - unfold mbind, result_bind.
    destruct (network_line n) as [line|] eqn:Hline; [|done].
    destruct (result_map network_line ns) as [lines'|]; [|done]. intros _.
    destruct (IH _ eq_refl) as (entries & -> & Hall).
    destruct n as [| | | | | |nd]; try done.
    eexists. split; [reflexivity|]. constructor; [|done]. by exists nd.
Qed.

Lemma payment_required_reply_total data e :
  PaymentRequiredError_init data = Return e →
  ∃ x ns entries,
    PaymentRequiredError_price_usd data = Return x ∧
    py_iter (dict_get_or "networks" (JList []) data) = Return ns ∧
    Forall2 entry_of ns entries ∧
    payment_required_reply data
    = Return
        {| payment_status := "payment_required";
           price_usdc := py_round x 4;
           payment_message :=
             fstring [Lit "Send $"; Fixed 4 x;
                      Lit " USDC to one of the addresses below, then retry with the tx hash as payment_signature."];
           payment_networks := entries;
           instructions :=
             ["1. Send the exact USDC amount to one of the wallet addresses above.";
              "2. Wait for the transaction to confirm (~2s Base, ~400ms Solana).";
              "3. Call spawn_browser again with payment_signature set to the tx hash."] |}.
Proof.
  unfold PaymentRequiredError_init, payment_required_reply.
  change (tool_price_usd data) with (PaymentRequiredError_price_usd data).
  unfold mbind, result_bind.
  destruct (py_iter _) as [ns|]; [|done].
  destruct (result_map network_line ns) as [lines|] eqn:Hlines; [|done].
  destruct (PaymentRequiredError_price_usd data) as [x|]; [|done]. intros _.
  destruct (network_entries _ _ Hlines) as (entries & -> & Hall).
  by exists x, ns, entries.
Qed.

(** X18. The tool [spawn_browser] turns a payment requirement into
    instructions: on a reply 402 whose body [PaymentRequiredError]
    accepts, it returns, rather than raises, the status
    ["payment_required"], the price of the rule rounded to 4 places, and
    one entry for each network of the body with its network, its address
    and its token, ["USDC"] when the network names none; the sentinel
    record is stored. *)
Theorem payment_is_returned_as_instructions country duration profile_id
    payment_signature user_agent width height w data :
  let options :=
    {| country := country; duration_minutes := Some duration;
       profile_id := profile_id; payment_signature := payment_signature;
       options_user_agent := user_agent;
       viewport_width := width; viewport_height := height |} in
  let out := tool_spawn_browser country duration profile_id payment_signature
               user_agent width height w in
  remote (sent w) (creation_request options) = Responds 402 (Some data) →
  (∃ e, PaymentRequiredError_init data = Return e) →
  ∃ p x ns,
    out.1 = Return (PaymentInstructions p) ∧
    payment_status p = "payment_required" ∧
    PaymentRequiredError_price_usd data = Return x ∧
    price_usdc p = py_round x 4 ∧
    py_iter (dict_get_or "networks" (JList []) data) = Return ns ∧
    Forall2 entry_of ns (payment_networks p) ∧
    dict_get (KStr "payment_required") (_instances out.2)
    = Some (payment_session (length (objects w)) data).
Proof.
  cbn zeta. intros Hreply [e Hinit].
  destruct (PaymentRequiredError_init_carries _ _ Hinit) as [message ->].
  destruct (payment_required_reply_total _ _ Hinit)
    as (x & ns & entries & Hx & Hns & Hall & Hp).
  eassert (tool_spawn_browser country duration profile_id payment_signature
             user_agent width height w = (Return (PaymentInstructions _), _)) as ->.
  { unfold tool_spawn_browser, try_except. unfold mbind at 1, M_bind at 1.
    rewrite spawn_browser_run, Hreply. cbn zeta.
    change (402 =? 402) with true. cbv iota. rewrite Hinit.
    unfold lift, mbind, M_bind, mret, M_ret. rewrite Hp. reflexivity. }
  eexists _, x, ns. split; [reflexivity|]. cbn [fst snd].
  split; [done|]. split; [done|]. split; [done|]. split; [done|]. split; [done|].
  apply sentinel_stored.
Qed.

Lemma plainM_bind {A B : Type} (m : M A) (f : A → M B) :
  plainM m → (∀ a, plainM (f a)) → plainM (m ≫= f).
Proof.
  intros Hm Hf w e w'. unfold mbind, M_bind.
  destruct (m w) as [[a|e0] w0] eqn:Hrun.
  - apply Hf.
  - intros [= <- <-]. by apply (Hm _ _ _ Hrun).
Qed.

Lemma plainM_ret {A : Type} (a : A) : plainM (mret a).
Proof. by intros w e w'. Qed.

Lemma plainM_lift {A : Type} (r : result A) : plain r → plainM (lift r).
Proof. intros Hr w e w'. unfold lift. intros [= -> <-]. by apply Hr. Qed.

Lemma plainM_get_object l : plainM (get_object l).
Proof.
  intros w e w'. unfold get_object. destruct (objects w !! l); by intros [= <- <-].
Qed.

Lemma plainM_get_session_data v : plainM (get_session_data v).
Proof.
  intros w e w'. unfold get_session_data, get_instances, mbind, M_bind, mret, M_ret, raise.
  destruct (hash_key v); by intros [= <- <-].
Qed.

Lemma plain_pick keys info : plain (pick keys info).
Proof.
  unfold pick. apply plain_result_map. intros k.
  apply plain_bind; [apply plain_py_get|]. intros v. apply plain_Return.
Qed.

Lemma plainM_session_info l : plainM (session_info l).
Proof.
  unfold session_info.
  apply plainM_bind; [apply plainM_get_object|]. intros inst.
  apply plainM_bind; [apply plainM_get_session_data|]. intros data. cbn zeta.
  apply plainM_bind.
  { case_match; [|apply plainM_ret].
    apply plainM_bind; [apply plainM_lift, plain_pick|]. intros. apply plainM_ret. }
  intros info.
  apply plainM_bind.
  { case_match; [|apply plainM_ret].
    apply plainM_bind; [apply plainM_lift, plain_pick|]. intros. apply plainM_ret. }
  intros info'. apply plainM_ret.
Qed.

(** X19. The tool [spawn_browser] never raises [PaymentRequiredError]:
    whatever it raises is the failure
    ["Failed to spawn browser: ..."] wrapped around an error that is not
    a payment requirement. *)
Theorem tool_spawn_browser_wraps_failures country duration profile_id
    payment_signature user_agent width height w e :
  (tool_spawn_browser country duration profile_id payment_signature user_agent
     width height w).1 = Raise e →
  ∃ cause, e = ExceptionStr "Failed to spawn browser: " cause ∧
           is_PaymentRequiredError cause = false.
Proof.
  unfold tool_spawn_browser, try_except. unfold mbind at 1, M_bind at 1.
  set (options := {| country := country; duration_minutes := Some duration;
                     profile_id := profile_id; payment_signature := payment_signature;
                     options_user_agent := user_agent;
                     viewport_width := width; viewport_height := height |}).
  destruct (spawn_browser options w) as [[l|e0] w1] eqn:Hrun.
  - unfold mbind, M_bind, mret, M_ret.
    destruct (session_info l w1) as [[info|e1] w2] eqn:Hinfo; [done|].
    pose proof (plainM_session_info _ _ _ _ Hinfo) as Hplain.
    destruct e1; try done; cbn; intros [= <-]; by eexists.
  - destruct (is_PaymentRequiredError e0) eqn:He0.
    + destruct (spawn_browser_payment _ _ _ _ Hrun He0) as (data & _ & Hinit & _).
      destruct (PaymentRequiredError_init_carries _ _ Hinit) as [message ->].
      destruct (payment_required_reply_total _ _ Hinit) as (x & ns & entries & _ & _ & _ & Hp).
      unfold lift, mbind, M_bind, mret, M_ret. by rewrite Hp.
    + destruct e0; try done; cbn; intros [= <-]; by eexists.
Qed.

Lemma get_object_found l w o : objects w !! l = Some o → get_object l w = (Return o, w).
Proof. intros Ho. unfold get_object. by rewrite Ho. Qed.

Lemma session_info_fields l w info w' o data :
  objects w !! l = Some o →
  get_session_data (instance_id o) w = (Return data, w) →
  session_info l w = (Return info, w') →
  dict_get "instance_id" info = Some (instance_id o) ∧
  dict_get "state" info = Some (JStr (BrowserState_value (state o))) ∧
  dict_get "viewport" info = Some (JDict ((λ kv, (kv.1, JInt kv.2)) <$> viewport o)) ∧
  dict_get "expires_at" info = Some (data_get data "expires_at" JNull) ∧
  (is_Some (dict_get "proxy" info) ↔ truthy (data_get data "proxy" (JDict [])) = true).
Proof.
  intros Ho Hdata. unfold session_info. unfold mbind at 1, M_bind at 1.
  rewrite (get_object_found _ _ _ Ho). unfold mbind at 1, M_bind at 1.
  rewrite Hdata. cbn zeta. unfold lift, mbind, M_bind, mret, M_ret.
  destruct (truthy (data_get data "proxy" (JDict []))) eqn:Hproxy;
    [destruct (pick _ (data_get data "proxy" (JDict []))) as [proxy|]; [|done]|];
    (destruct (truthy (data_get data "fingerprint" (JDict [])));
     [destruct (pick _ (data_get data "fingerprint" (JDict []))) as [fp|]; [|done]|]);
    destruct (truthy (data_get data "loaded_profile_id" JNull));
    intros [= <- <-]; repeat split; try reflexivity; try done;
    try (intros _; eexists; reflexivity); intros [v Hget]; by vm_compute in Hget.
Qed.

(** X20. When the tool [spawn_browser] returns the description of a
    session, the reply had the status 200 or 201 and the description
    reflects it: its id is the [session_id] of the reply, its state is
    ["ready"], its viewport is the one asked for, its expiry is the field
    [expires_at] of the reply, or [expiresAt] when the former is missing
    or empty, and it describes the proxy exactly when the reply has a
    non-empty [proxy]. *)
Theorem session_info_reflects_the_reply country duration profile_id
    payment_signature user_agent width height w info w' :
  let options :=
    {| country := country; duration_minutes := Some duration;
       profile_id := profile_id; payment_signature := payment_signature;
       options_user_agent := user_agent;
       viewport_width := width; viewport_height := height |} in
  tool_spawn_browser country duration profile_id payment_signature user_agent
    width height w = (Return (SessionInfo info), w') →
  ∃ st data,
    remote (sent w) (creation_request options) = Responds st (Some data) ∧
    (st = 200 ∨ st = 201) ∧
    dict_get "instance_id" info = Some (json_get "session_id" data) ∧
    dict_get "state" info = Some (JStr "ready") ∧
    dict_get "viewport" info
    = Some (JDict [("width", JInt width); ("height", JInt height)]) ∧
    dict_get "expires_at" info
    = Some (py_or (json_get "expires_at" data) (json_get "expiresAt" data)) ∧
    (is_Some (dict_get "proxy" info)
     ↔ truthy (dict_get_or "proxy" (JDict []) data) = true).
Proof.
  cbn zeta. unfold tool_spawn_browser, try_except. unfold mbind at 1, M_bind at 1.
  set (options := {| country := country; duration_minutes := Some duration;
                     profile_id := profile_id; payment_signature := payment_signature;
                     options_user_agent := user_agent;
                     viewport_width := width; viewport_height := height |}).
  destruct (spawn_browser options w) as [[l|e0] w1] eqn:Hrun.
  - unfold mbind, M_bind, mret, M_ret.
    destruct (session_info l w1) as [[info1|e1] w2] eqn:Hinfo.
    2:{ destruct e1; unfold lift, mbind, M_bind, mret, M_ret, raise; try done.
        by destruct (payment_required_reply payment_info). }
    intros [= <- <-].
    rewrite spawn_browser_run in Hrun. cbn zeta in Hrun.
    destruct (remote (sent w) (creation_request options)) as [d|st [data|]];
      [done| |done].
    destruct (st =? 402) eqn:H402.
    { by destruct (PaymentRequiredError_init data). }
    destruct ((st =? 200) || (st =? 201)) eqn:Hst; [|done].
    destruct (hash_key (json_get "session_id" data)) as [k|] eqn:Hk; [|done].
    injection Hrun as <- <-.
    exists st, data. split; [done|]. split.
    { apply orb_true_iff in Hst as [?%Z.eqb_eq | ?%Z.eqb_eq]; auto. }
    set (record := created_session (length (objects w)) (json_get "session_id" data)
                     (dict_get_or "session_token" (json_get "session_id" data) data)
                     data) in *.
    set (w1 := with_instances (dict_set k record) (readied options data w)) in *.
    assert (objects w1 !! length (objects w)
            = Some (set_state READY
                      (set_instance_id (json_get "session_id" data)
                         (pending_instance options (now (clock_reads w))
                            (now (S (clock_reads w))))))) as Ho.
    { subst w1. by rewrite objects_with_instances, objects_readied, list_lookup_middle. }
    assert (get_session_data (json_get "session_id" data) w1
            = (Return (Some record), w1)) as Hdata.
    { unfold_ops. subst w1. cbn. rewrite Hk. by rewrite dict_get_set_eq. }
    destruct (session_info_fields _ _ _ _ _ _ Ho Hdata Hinfo)
      as (Hid & Hstate & Hview & Hexp & Hproxy).
    split; [exact Hid|]. split; [exact Hstate|]. split; [exact Hview|].
    split; [exact Hexp|]. exact Hproxy.
  - destruct e0; unfold lift, mbind, M_bind, mret, M_ret, raise; try done.
    by destruct (payment_required_reply payment_info).
Qed.

(** X21. The tool [navigate] never sends its timeout: the calls with two
    numbers as timeout do the same, while a timeout that is not a number
    raises [ValueError] before any call. When the tool returns, the URL
    and the title it reports are the ones the manager then caches for the
    instance. *)
Theorem tool_navigate_reports_the_cache id url wait_until timeout w :
  (∀ n m, tool_navigate id url wait_until (IntArg n) w
          = tool_navigate id url wait_until (IntArg m) w) ∧
  (∀ s, timeout = StrArg s → int_of_str s = None →
        tool_navigate id url wait_until timeout w = (Raise ValueError, w)) ∧
  (∀ r w', tool_navigate id url wait_until timeout w = (Return r, w') →
     ∃ s, dict_get (KStr id) (_instances w) = Some s ∧
          dict_get "success" r = Some (JBool true) ∧
          ∀ o, objects w !! instance s = Some o →
               ∃ o', objects w' !! instance s = Some o' ∧
                     dict_get "url" r = Some (current_url o') ∧
                     dict_get "title" r = Some (title o')).
Proof.
  split; [done|]. split.
  - intros s -> Hs. unfold tool_navigate, py_int, lift. unfold mbind at 1, M_bind at 1.
    by rewrite Hs.
  - intros r w'. unfold tool_navigate, lift. unfold mbind at 1, M_bind at 1.
    destruct (py_int timeout) as [n|]; [|done].
    unfold mbind, M_bind, mret, M_ret. rewrite navigate_run. cbn zeta.
    destruct (dict_get (KStr id) (_instances w)) as [s|] eqn:Hs; [|done].
    destruct (remote _ _) as [|st [data|]]; [done| |done].
    destruct (st =? 200); [|done]. intros [= <- <-].
    exists s. split; [done|]. split; [reflexivity|].
    intros o Ho. exists (navigated url data (now (clock_reads w)) o).
    split; [|split].
    + cbn. by rewrite list_lookup_alter_eq, Ho.
    + unfold navigated, dict_get_or. cbn. by destruct (dict_get "url" data).
    + unfold navigated, dict_get_or. cbn.
      change (dict_get "title"
                [("url", default (JStr url) (dict_get "url" data));
                 ("title", default (JStr "") (dict_get "title" data));
                 ("success", JBool true)])
        with (Some (default (JStr "") (dict_get "title" data))).
      by destruct (dict_get "title" data).
Qed.

End BrowserManager.

(** ** Runs on sample inputs *)

(** A creation answered with 201 and [session_id] ["s1"]. *)
Example created_run :
  spawn_browser no_environ created_service counting_clock decimal_of_string
    us_options init_world
  = (Return 0%nat,
     {| _instances :=
          [(KStr "s1",
            {| instance := 0; session_id := JStr "s1"; session_token := JStr "s1";
               fields := [("expires_at", JNull);
                          ("proxy", JDict [("country", JStr "US")]);
                          ("fingerprint", JDict []);
                          ("loaded_profile_id", JNull)] |})];
        _http := OpenSession;
        objects :=
          [{| instance_id := JStr "s1"; state := READY; current_url := JNull;
              title := JNull; created_at := 0; last_activity := 1;
              headless := true; user_agent := None;
              viewport := [("width", 1920); ("height", 1080)] |}];
        sent :=
          [{| method := POST;
              url := [Lit "https://browser.proxies.sx/v1/sessions"];
              json_body := Some [("country", JStr "US"); ("durationMinutes", JInt 30)];
              headers := [("Content-Type", [Lit "application/json"])] |}];
        clock_reads := 2 |}).
Proof. reflexivity. Qed.

(** The scenario of the specification: creation, navigation, closing,
    and a navigation after closing. *)
Example end_to_end :
  let w1 := (spawn_browser no_environ created_service counting_clock decimal_of_string
               us_options init_world).2 in
  let nav := navigate no_environ created_service counting_clock "s1"
               "https://example.com" "domcontentloaded" w1 in
  let closed := close_browser no_environ created_service (KStr "s1") nav.2 in
  let again := navigate no_environ created_service counting_clock "s1"
                 "https://example.com" "domcontentloaded" closed.2 in
  nav.1 = Return page_payload ∧
  current_url <$> objects nav.2 !! 0%nat = Some (JStr "https://example.com/") ∧
  closed.1 = Return true ∧
  again.1 = Raise (Exception (JStr "No browser instance: s1")) ∧
  length (sent again.2) = 3%nat.
Proof. repeat split. Qed.


Lemma send_command_dispatch_witness :
  let w := (spawn_browser no_environ expiring_service counting_clock decimal_of_string
              us_options init_world).2 in
  let s := created_session 0 (JStr "s1") (JStr "s1") created_payload in
  let w' := (spawn_browser no_environ created_service counting_clock decimal_of_string
               us_options init_world).2 in
  dict_get (KStr "s9") (_instances w) = None ∧
  send_command no_environ expiring_service "s9" "click" None w
  = (Raise (Exception (JStr "No browser instance: s9")), w) ∧
  dict_get (KStr "s1") (_instances w) = Some s ∧
  expiring_service (sent w) (command_request no_environ s "click" None)
  = Responds 410 (Some error_payload) ∧
  410 ≠ 200 ∧
  (send_command no_environ expiring_service "s1" "click" None w).1
  = Raise (Exception (JStr "session expired")) ∧
  dict_get (KStr "s1") (_instances w') = Some s ∧
  created_service (sent w') (command_request no_environ s "click" None)
  = Responds 200 (Some page_payload) ∧
  (send_command no_environ created_service "s1" "click" None w').1 = Return page_payload.
Proof.
  cbv zeta. split; [reflexivity|]. split.
  { apply (send_command_dispatch no_environ expiring_service "s9" "click" None).
    reflexivity. }
  split; [reflexivity|]. split; [reflexivity|]. split; [discriminate|]. split.
  { destruct (send_command_dispatch no_environ expiring_service "s1" "click" None
                (spawn_browser no_environ expiring_service counting_clock
                   decimal_of_string us_options init_world).2) as [_ Hfound].
    destruct (Hfound _ eq_refl) as (_ & _ & _ & _ & _ & _ & Hother).
    apply (Hother 410 error_payload); [reflexivity | discriminate]. }
  split; [reflexivity|]. split; [reflexivity|].
  destruct (send_command_dispatch no_environ created_service "s1" "click" None
              (spawn_browser no_environ created_service counting_clock
                 decimal_of_string us_options init_world).2) as [_ Hfound].
  destruct (Hfound _ eq_refl) as (_ & _ & _ & _ & _ & H200 & _).
  apply H200. reflexivity.
Defined.

Lemma spawn_browser_by_status_witness :
  created_service (sent init_world) (creation_request no_environ us_options)
  = Responds 201 (Some created_payload) ∧
  (201 = 200 ∨ 201 = 201) ∧
  hash_key (json_get "session_id" created_payload) = Some (KStr "s1") ∧
  (∃ l o,
     (spawn_browser no_environ created_service counting_clock decimal_of_string
        us_options init_world).1 = Return l ∧
     objects (spawn_browser no_environ created_service counting_clock decimal_of_string
                us_options init_world).2 !! l = Some o ∧
     instance_id o = JStr "s1" ∧
     state o = READY) ∧
  accepted_service (sent init_world) (creation_request no_environ us_options)
  = Responds 202 (Some created_payload) ∧
  202 ≠ 200 ∧ 202 ≠ 201 ∧ 202 ≠ 402 ∧
  _instances (spawn_browser no_environ accepted_service counting_clock
                decimal_of_string us_options init_world).2 = _instances init_world.
Proof.
  split; [reflexivity|]. split; [right; reflexivity|]. split; [reflexivity|].
  split.
  { destruct (spawn_browser_by_status no_environ created_service counting_clock
                decimal_of_string us_options init_world 201 created_payload eq_refl)
      as [Hok _].
    destruct (Hok (or_intror eq_refl) (KStr "s1") eq_refl)
      as (l & o & Hl & Ho & Hid & Hst & _).
    exists l, o. repeat split; assumption. }
  split; [reflexivity|]. repeat (split; [discriminate|]).
  destruct (spawn_browser_by_status no_environ accepted_service counting_clock
              decimal_of_string us_options init_world 202 created_payload eq_refl)
    as [_ Hfail].
  apply Hfail; discriminate.
Defined.

Lemma spawn_browser_created_witness :
  let out := spawn_browser no_environ created_service counting_clock decimal_of_string
               us_options init_world in
  out = (Return 0%nat, out.2) ∧
  ∃ st data o r,
    created_service (sent init_world) (creation_request no_environ us_options)
    = Responds st (Some data) ∧
    objects out.2 !! 0%nat = Some o ∧
    instance_id o = json_get "session_id" data ∧
    get_session_data (instance_id o) out.2 = (Return (Some r), out.2) ∧
    session_token r = match dict_get "session_token" data with
                      | Some token => token
                      | None => json_get "session_id" data
                      end.
Proof.
  cbv zeta. split; [reflexivity|].
  apply (spawn_browser_created no_environ created_service counting_clock
           decimal_of_string us_options init_world). reflexivity.
Defined.

Lemma null_token_is_kept_witness :
  let out := spawn_browser no_environ null_token_service counting_clock
               decimal_of_string default_options init_world in
  null_token_service (sent init_world) (creation_request no_environ default_options)
  = Responds 200 (Some null_token_payload) ∧
  hash_key (json_get "session_id" null_token_payload) = Some (KStr "s1") ∧
  dict_get "session_token" null_token_payload = Some JNull ∧
  out.1 = Return 0%nat ∧
  (∃ r, dict_get (KStr "s1") (_instances out.2) = Some r ∧
        session_id r = JStr "s1" ∧ session_token r = JNull) ∧
  (∀ commands, ∃ reqs,
     sent (dispatch_each no_environ null_token_service "s1" commands out.2).2
     = sent out.2 ++ reqs ∧
     length reqs = length commands ∧
     Forall (λ req, dict_get "Authorization" (headers req) = Some [Lit "Bearer None"])
       reqs).
Proof.
  cbv zeta. split; [reflexivity|]. split; [reflexivity|]. split; [reflexivity|].
  destruct (null_token_is_kept no_environ null_token_service counting_clock
              decimal_of_string default_options init_world 200 null_token_payload
              (KStr "s1") eq_refl (or_introl eq_refl) eq_refl eq_refl)
    as (Hret & Hrecord & Hcommands).
  split; [exact Hret|]. split; [exact Hrecord|].
  intros commands. exact (Hcommands "s1" commands eq_refl).
Defined.

Lemma navigate_updates_witness :
  let w := (spawn_browser no_environ created_service counting_clock decimal_of_string
              us_options init_world).2 in
  let out := navigate no_environ created_service counting_clock "s1"
               "https://example.com" "domcontentloaded" w in
  let req := command_request no_environ
               (created_session 0 (JStr "s1") (JStr "s1") created_payload) "navigate"
               (Some [("url", JStr "https://example.com");
                      ("wait_until", JStr "domcontentloaded")]) in
  out = (Return page_payload, out.2) ∧
  created_service (sent w) req = Responds 200 (Some page_payload) ∧
  sent out.2 = sent w ++ [req] ∧
  _instances out.2 = _instances w ∧
  ∃ o', objects out.2 !! 0%nat = Some o' ∧
        current_url o' = JStr "https://example.com/" ∧
        title o' = JStr "Example Domain" ∧
        state o' = READY ∧
        last_activity o' = counting_clock (clock_reads w).
Proof.
  cbv zeta.
  assert (navigate no_environ created_service counting_clock "s1"
            "https://example.com" "domcontentloaded"
            (spawn_browser no_environ created_service counting_clock
               decimal_of_string us_options init_world).2
          = (Return page_payload,
             (navigate no_environ created_service counting_clock "s1"
                "https://example.com" "domcontentloaded"
                (spawn_browser no_environ created_service counting_clock
                   decimal_of_string us_options init_world).2).2)) as Hrun
    by reflexivity.
  split; [exact Hrun|].
  destruct (navigate_updates no_environ created_service counting_clock "s1"
              "https://example.com" "domcontentloaded" _ _ _ Hrun)
    as (s & Hs & Hreply & Hsent & Hregistry & _ & Hcache).
  injection Hs as <-.
  split; [exact Hreply|]. split; [exact Hsent|]. split; [exact Hregistry|].
  destruct (Hcache _ eq_refl) as (o' & Ho' & Hurl & Htitle & Hstate & Hactivity & _).
  exists o'. repeat split; assumption.
Defined.

Lemma sentinel_is_dispatched_witness :
  let w := (spawn_browser no_environ payment_service counting_clock decimal_of_string
              default_options init_world).2 in
  let s := payment_session 0 payment_payload in
  let out := send_command no_environ payment_service "payment_required" "navigate"
               (Some [("url", JStr "https://example.com")]) w in
  dict_get (KStr "payment_required") (_instances w) = Some s ∧
  session_id s = JNull ∧
  session_token s = JNull ∧
  ∃ req,
    sent out.2 = sent w ++ [req] ∧
    method req = POST ∧
    url req = [Lit (API_BASE no_environ +:+ "/v1/sessions/None/command")] ∧
    dict_get "Authorization" (headers req) = Some [Lit "Bearer None"].
Proof.
  cbv zeta. split; [reflexivity|]. split; [reflexivity|]. split; [reflexivity|].
  destruct (sentinel_is_dispatched no_environ payment_service
              (spawn_browser no_environ payment_service counting_clock
                 decimal_of_string default_options init_world).2
              (payment_session 0 payment_payload) "navigate"
              (Some [("url", JStr "https://example.com")]) eq_refl eq_refl eq_refl)
    as (req & Hsent & Hmethod & Hurl & _ & Hauth & _).
  exists req. repeat split; assumption.
Defined.

Lemma close_browser_removes_witness :
  let w := (spawn_browser no_environ dropping_service counting_clock decimal_of_string
              us_options init_world).2 in
  let s := created_session 0 (JStr "s1") (JStr "s1") created_payload in
  let out := close_browser no_environ dropping_service (KStr "s1") w in
  dict_get (KStr "s1") (_instances w) = Some s ∧
  dropping_service (sent w) (close_request no_environ s) = Fails "connection reset" ∧
  out.1 = Return true ∧
  dict_get (KStr "s1") (_instances out.2) = None ∧
  (∀ k, k ∈ dict_keys (_instances w) →
        dict_get k (_instances (close_all no_environ dropping_service w).2) = None).
Proof.
  cbv zeta. split; [reflexivity|]. split; [reflexivity|].
  destruct (close_browser_removes no_environ dropping_service (KStr "s1")
              (spawn_browser no_environ dropping_service counting_clock
                 decimal_of_string us_options init_world).2)
    as (_ & _ & Hthrows & _ & Hall).
  destruct (Hthrows _ _ eq_refl eq_refl) as [Htrue Hgone].
  split; [exact Htrue|]. split; [exact Hgone | exact Hall].
Defined.

(** ** Runs that depart from the specification *)

(** C1, counterexample. After a creation answered with 402, a dispatch to
    ["payment_required"] does not fail: the sentinel record is found, one
    call is sent to the session [None] with the header ["Bearer None"],
    and the body of the reply is returned. *)
Lemma sentinel_dispatch_counterexample :
  let run := spawn_browser no_environ payment_service counting_clock decimal_of_string
               default_options init_world in
  let out := send_command no_environ payment_service "payment_required" "navigate"
               (Some [("url", JStr "https://example.com")]) run.2 in
  (∃ e, run.1 = Raise e ∧ is_PaymentRequiredError e = true) ∧
  dict_get (KStr "payment_required") (_instances run.2)
  = Some (payment_session 0 payment_payload) ∧
  out.1 = Return ok_payload ∧
  sent out.2 = sent run.2 ++ [sentinel_request].
Proof. cbv zeta. split; [eexists; split; reflexivity|]. repeat split. Qed.

(** C3, counterexample. A creation answered with the status 202 and a
    JSON object holding a [session_id]: the status is in the 2xx range,
    yet the call fails with the generic error and stores nothing. *)
Lemma spawn_browser_202_counterexample :
  let out := spawn_browser no_environ accepted_service counting_clock
               decimal_of_string us_options init_world in
  accepted_service (sent init_world) (creation_request no_environ us_options)
  = Responds 202 (Some created_payload) ∧
  out.1 = Raise (ExceptionStr "Failed to create browser session: "
                   (Exception (JStr "API error 202"))) ∧
  _instances out.2 = [].
Proof. repeat split. Qed.

(** C4. A creation answered with 402 and the body [{"price": null}]
    stores the sentinel record, but the construction of
    [PaymentRequiredError] raises [TypeError] on the price, and the call
    ends with the generic creation failure instead of
    [PaymentRequiredError]; the same happens, with [ValueError], for the
    price ["$0.30"]. *)
Theorem spawn_browser_402_null_price :
  let out := spawn_browser no_environ null_price_service counting_clock
               decimal_of_string default_options init_world in
  let out' := spawn_browser no_environ dollar_price_service counting_clock
                decimal_of_string default_options init_world in
  null_price_service (sent init_world) (creation_request no_environ default_options)
  = Responds 402 (Some null_price_payload) ∧
  out.1 = Raise (ExceptionStr "Failed to create browser session: " TypeError) ∧
  dict_get (KStr "payment_required") (_instances out.2)
  = Some (payment_session 0 null_price_payload) ∧
  dollar_price_service (sent init_world) (creation_request no_environ default_options)
  = Responds 402 (Some dollar_price_payload) ∧
  out'.1 = Raise (ExceptionStr "Failed to create browser session: " ValueError) ∧
  dict_get (KStr "payment_required") (_instances out'.2)
  = Some (payment_session 0 dollar_price_payload).
Proof. repeat split. Qed.

(** ** Further runs on sample inputs *)

(** [created_world] is the state of [created_run]. *)
Example created_world_run :
  spawn_browser no_environ created_service counting_clock decimal_of_string
    us_options init_world
  = (Return 0%nat, created_world).
Proof. reflexivity. Qed.

Lemma save_profile_dispatch_witness :
  dict_get (KStr "s9") (_instances created_world) = None ∧
  save_profile no_environ created_service "s9" (Some "work") created_world
  = (Raise (Exception (JStr "No browser instance: s9")), created_world) ∧
  dict_get (KStr "s1") (_instances created_world) = Some created_record ∧
  created_service (sent created_world) (save_profile_request no_environ created_record (Some "work"))
  = Responds 200 (Some page_payload) ∧
  (save_profile no_environ created_service "s1" (Some "work") created_world).1
  = Return page_payload ∧
  json_body (save_profile_request no_environ created_record (Some "work"))
  = Some [("name", JStr "work")].
Proof.
  split; [reflexivity|]. split.
  { apply (save_profile_dispatch no_environ created_service "s9" (Some "work")
             created_world).
    reflexivity. }
  split; [reflexivity|]. split; [reflexivity|].
  destruct (save_profile_dispatch no_environ created_service "s1" (Some "work")
              created_world) as [_ Hfound].
  destruct (Hfound created_record eq_refl) as (Hcall & _ & _ & Hbody & _).
  split; [|exact Hbody].
  destruct Hcall as (_ & _ & _ & H200 & _). apply H200. reflexivity.
Defined.

Lemma load_profile_dispatch_witness :
  dict_get (KStr "s9") (_instances created_world) = None ∧
  load_profile no_environ expiring_service "s9" "p1" created_world
  = (Raise (Exception (JStr "No browser instance: s9")), created_world) ∧
  dict_get (KStr "s1") (_instances created_world) = Some created_record ∧
  expiring_service (sent created_world) (load_profile_request no_environ created_record "p1")
  = Responds 410 (Some error_payload) ∧
  410 ≠ 200 ∧
  (load_profile no_environ expiring_service "s1" "p1" created_world).1
  = Raise (Exception (JStr "session expired")).
Proof.
  split; [reflexivity|]. split.
  { apply (load_profile_dispatch no_environ expiring_service "s9" "p1" created_world).
    reflexivity. }
  split; [reflexivity|]. split; [reflexivity|]. split; [discriminate|].
  destruct (load_profile_dispatch no_environ expiring_service "s1" "p1" created_world)
    as [_ Hfound].
  destruct (Hfound created_record eq_refl) as (Hcall & _).
  destruct Hcall as (_ & _ & _ & _ & Hother & _).
  apply (Hother 410 error_payload); [reflexivity | discriminate].
Defined.

Lemma profiles_are_account_scoped_witness :
  dict_get (KStr "s9") (_instances created_world) = None ∧
  list_profiles no_environ created_service "s9" created_world
  = (Raise (Exception (JStr "No browser instance: s9")), created_world) ∧
  dict_get (KStr "s1") (_instances created_world) = Some created_record ∧
  sent (delete_profile no_environ created_service "p1" "s1" created_world).2
  = sent created_world
    ++ [{| method := DELETE;
           url := [Lit "https://browser.proxies.sx/v1/profiles/p1"];
           json_body := None;
           headers := [("Authorization", [Lit "Bearer s1"])] |}].
Proof.
  split; [reflexivity|]. split.
  { apply (profiles_are_account_scoped no_environ created_service "s9" "p1"
             created_world).
    reflexivity. }
  split; [reflexivity|].
  destruct (profiles_are_account_scoped no_environ created_service "s1" "p1"
              created_world) as [_ Hfound].
  destruct (Hfound created_record eq_refl) as (_ & Hdelete).
  destruct Hdelete as (Hsent & _). exact Hsent.
Defined.

Lemma close_all_sends_one_delete_each_witness :
  NoDup (dict_keys (_instances created_world)) ∧
  (close_all no_environ dropping_service created_world).1 = Return tt ∧
  _instances (close_all no_environ dropping_service created_world).2 = [] ∧
  sent (close_all no_environ dropping_service created_world).2
  = sent created_world ++ [close_request no_environ created_record].
Proof.
  assert (NoDup (dict_keys (_instances created_world))) as Hkeys
    by apply NoDup_singleton.
  split; [exact Hkeys|].
  destruct (close_all_sends_one_delete_each no_environ dropping_service created_world
              Hkeys) as (Hreturn & Hempty & Hsent & _).
  repeat split; assumption.
Defined.

Lemma registry_stays_sound_witness :
  let w := reached no_environ created_service counting_clock decimal_of_string
             [Spawn us_options; Navigate "s1" "https://example.com" "load"] in
  dict_get (KStr "s1") (_instances w) = Some created_record ∧
  ∃ o, objects w !! instance created_record = Some o ∧
       hash_key (instance_id o) = Some (KStr "s1").
Proof.
  cbv zeta. split; [reflexivity|].
  destruct (registry_stays_sound no_environ created_service counting_clock
              decimal_of_string
              [Spawn us_options; Navigate "s1" "https://example.com" "load"])
    as [_ Hrecords].
  destruct (Hrecords (KStr "s1") created_record eq_refl) as [Hobject _].
  exact Hobject.
Defined.

Lemma commands_reach_their_session_witness :
  let w := reached no_environ created_service counting_clock decimal_of_string
             [Spawn us_options] in
  dict_get (KStr "s1") (_instances w) = Some created_record ∧
  "s1" ≠ "payment_required" ∧
  url (command_request no_environ created_record "click" None)
  = [Lit "https://browser.proxies.sx/v1/sessions/s1/command"] ∧
  sent (send_command no_environ created_service "s1" "click" None w).2
  = sent w ++ [command_request no_environ created_record "click" None].
Proof.
  cbv zeta. split; [reflexivity|]. split; [discriminate|].
  destruct (commands_reach_their_session no_environ created_service counting_clock
              decimal_of_string [Spawn us_options] "s1" created_record eq_refl)
    as [Hcommand _].
  destruct (Hcommand ltac:(discriminate) "click" None) as [Hsent Hurl].
  split; [exact Hurl | exact Hsent].
Defined.

Lemma payment_required_only_from_402_witness :
  ∃ e,
    (spawn_browser no_environ payment_service counting_clock decimal_of_string
       us_options init_world).1 = Raise e ∧
    is_PaymentRequiredError e = true ∧
    ∃ data message,
      payment_service (sent init_world) (creation_request no_environ us_options)
      = Responds 402 (Some data) ∧
      e = PaymentRequiredError data message.
Proof.
  destruct (spawn_browser no_environ payment_service counting_clock decimal_of_string
              us_options init_world).1 as [l|e] eqn:Hrun; [discriminate Hrun|].
  exists e. split; [reflexivity|].
  assert (is_PaymentRequiredError e = true) as Hpayment
    by (injection Hrun as <-; reflexivity).
  split; [exact Hpayment|].
  destruct (payment_required_only_from_402 no_environ payment_service counting_clock
              decimal_of_string us_options init_world e Hrun Hpayment)
    as [(data & message & Hreply & He & _) _].
  exists data, message. split; assumption.
Defined.

Lemma failed_creation_stores_nothing_witness :
  ∃ e,
    (spawn_browser no_environ accepted_service counting_clock decimal_of_string
       us_options init_world).1 = Raise e ∧
    (∀ data, accepted_service (sent init_world) (creation_request no_environ us_options)
             ≠ Responds 402 (Some data)) ∧
    _instances (spawn_browser no_environ accepted_service counting_clock
                  decimal_of_string us_options init_world).2 = [] ∧
    ∃ cause, e = creation_failure cause.
Proof.
  destruct (spawn_browser no_environ accepted_service counting_clock decimal_of_string
              us_options init_world).1 as [l|e] eqn:Hrun; [discriminate Hrun|].
  exists e. split; [reflexivity|].
  assert (∀ data, accepted_service (sent init_world)
                    (creation_request no_environ us_options)
                  ≠ Responds 402 (Some data)) as Hreply
    by (intros data; discriminate).
  split; [exact Hreply|].
  destruct (failed_creation_stores_nothing no_environ accepted_service counting_clock
              decimal_of_string us_options init_world e Hrun Hreply)
    as ((cause & He & _) & Hregistry & _).
  split; [exact Hregistry|]. exists cause. exact He.
Defined.

Lemma tools_add_success_witness :
  NoDup (dict_keys page_payload) ∧
  dict_get "success" (with_success page_payload) = Some (JBool true) ∧
  dict_get "title" (with_success page_payload) = Some (JStr "Example Domain").
Proof.
  assert (NoDup (dict_keys page_payload)) as Hkeys.
  { apply NoDup_cons. split; [|apply NoDup_singleton].
    intros Hin. apply list_elem_of_singleton in Hin. discriminate Hin. }
  split; [exact Hkeys|].
  destruct (tools_add_success no_environ created_service) as (_ & _ & _ & _ & _ & Hget).
  split; [apply (Hget page_payload Hkeys "success") | apply (Hget page_payload Hkeys "title")].
Defined.

Lemma params_can_replace_the_action_witness :
  NoDup (dict_keys [("action", JStr "close")]) ∧
  dict_get "action" (command_body "click" (Some [("action", JStr "close")]))
  = Some (JStr "close").
Proof.
  assert (NoDup (dict_keys [("action", JStr "close")])) as Hkeys
    by apply NoDup_singleton.
  split; [exact Hkeys|].
  destruct (params_can_replace_the_action no_environ created_service "click"
              [("action", JStr "close")] Hkeys) as [Haction _].
  exact Haction.
Defined.

Lemma scroll_page_directions_witness :
  integer_of_string "far" = None ∧
  scroll_page no_environ created_service integer_of_string "s1" "top" (StrArg "far")
    created_world
  = (Raise ValueError, created_world) ∧
  py_int integer_of_string (StrArg "300") = Return 300 ∧
  "up" ≠ "top" ∧ "up" ≠ "bottom" ∧
  sent (scroll_page no_environ created_service integer_of_string "s1" "up"
          (StrArg "300") created_world).2
  = sent created_world
    ++ [command_request no_environ created_record "scroll"
          (Some [("x", JInt 0); ("y", JInt (-300))])] ∧
  (scroll_page no_environ created_service integer_of_string "s1" "up"
     (StrArg "300") created_world).1
  = Return [("success", JBool true); ("direction", JStr "up"); ("amount", JInt 300);
            ("url", JStr "https://example.com/"); ("title", JStr "Example Domain")].
Proof.
  split; [reflexivity|]. split.
  { destruct (scroll_page_directions no_environ created_service integer_of_string
                "s1" "top" (StrArg "far") created_world) as [Hvalue _].
    exact (Hvalue "far" eq_refl eq_refl). }
  split; [reflexivity|]. split; [discriminate|]. split; [discriminate|].
  destruct (scroll_page_directions no_environ created_service integer_of_string
              "s1" "up" (StrArg "300") created_world) as [_ Hscroll].
  assert ("up" ≠ "top") as Htop by discriminate.
  assert ("up" ≠ "bottom") as Hbottom by discriminate.
  pose proof (Hscroll 300 eq_refl Htop Hbottom) as Hrun.
  cbv zeta in Hrun. rewrite Hrun.
  split; vm_compute; reflexivity.
Defined.

Lemma set_local_storage_needs_items_witness :
  default [] (None : option dict) = [] ∧
  tool_set_local_storage no_environ created_service "s1" None (Some "theme") None
    created_world
  = (Return [("success", JBool false);
             ("error", JStr "Provide items dict or key+value pair")], created_world) ∧
  dict_get (KStr "s1") (_instances created_world) = Some created_record ∧
  ∃ stored,
    sent (tool_set_local_storage no_environ created_service "s1"
            (Some [("theme", JStr "light"); ("lang", JStr "en")])
            (Some "theme") (Some "dark") created_world).2
    = sent created_world
      ++ [command_request no_environ created_record "set_local_storage"
            (Some [("items", JDict stored)])] ∧
    dict_get "theme" stored = Some (JStr "dark") ∧
    dict_get "lang" stored = Some (JStr "en").
Proof.
  split; [reflexivity|]. split.
  { apply (set_local_storage_needs_items no_environ created_service "s1" None
             (Some "theme") None created_world);
      [reflexivity | right; reflexivity]. }
  split; [reflexivity|].
  destruct (set_local_storage_needs_items no_environ created_service "s1"
              (Some [("theme", JStr "light"); ("lang", JStr "en")])
              (Some "theme") (Some "dark") created_world) as [_ Hset].
  destruct (Hset "theme" "dark" created_record eq_refl eq_refl eq_refl)
    as (stored & Hsent & Hkey & Hothers).
  exists stored. split; [exact Hsent|]. split; [exact Hkey|].
  rewrite (Hothers "lang"); [reflexivity | discriminate].
Defined.

Lemma tool_execute_script_never_raises_witness :
  dict_get (KStr "s9") (_instances created_world) = None ∧
  tool_execute_script no_environ created_service "s9" "document.title" created_world
  = (Return {| script_success := false; script_result := JNull;
               script_error := Some (Exception (JStr "No browser instance: s9")) |},
     created_world).
Proof.
  split; [reflexivity|].
  apply (tool_execute_script_never_raises no_environ created_service "s9"
           "document.title" created_world).
  reflexivity.
Defined.

Lemma payment_is_returned_as_instructions_witness :
  let out := tool_spawn_browser no_environ payment_service counting_clock
               decimal_of_string round_half_even (Some "US") 30 None None None
               1920 1080 init_world in
  payment_service (sent init_world) (creation_request no_environ us_options)
  = Responds 402 (Some payment_payload) ∧
  (∃ e, PaymentRequiredError_init decimal_of_string payment_payload = Return e) ∧
  ∃ p,
    out.1 = Return (PaymentInstructions p) ∧
    payment_status p = "payment_required" ∧
    price_usdc p = round_half_even (3 # 2)%Q 4 ∧
    Forall2 entry_of [JDict [("network", JStr "base"); ("address", JStr "0xabc")]]
      (payment_networks p).
Proof.
  cbv zeta.
  assert (∃ e, PaymentRequiredError_init decimal_of_string payment_payload = Return e)
    as Haccepted by (eexists; reflexivity).
  split; [reflexivity|]. split; [exact Haccepted|].
  destruct (payment_is_returned_as_instructions no_environ payment_service
              counting_clock decimal_of_string round_half_even (Some "US") 30 None None
              None 1920 1080 init_world payment_payload eq_refl Haccepted)
    as (p & x & ns & Hout & Hstatus & Hprice & Hrounded & Hnetworks & Hentries & _).
  exists p. split; [exact Hout|]. split; [exact Hstatus|].
  injection Hprice as <-. injection Hnetworks as <-.
  split; [exact Hrounded | exact Hentries].
Defined.

Lemma tool_spawn_browser_wraps_failures_witness :
  ∃ e,
    (tool_spawn_browser no_environ accepted_service counting_clock decimal_of_string
       round_half_even (Some "US") 30 None None None 1920 1080 init_world).1 = Raise e ∧
    ∃ cause, e = ExceptionStr "Failed to spawn browser: " cause ∧
             is_PaymentRequiredError cause = false.
Proof.
  destruct (tool_spawn_browser no_environ accepted_service counting_clock
              decimal_of_string round_half_even (Some "US") 30 None None None 1920 1080
              init_world).1 as [r|e] eqn:Hrun; [discriminate Hrun|].
  exists e. split; [reflexivity|].
  exact (tool_spawn_browser_wraps_failures no_environ accepted_service counting_clock
           decimal_of_string round_half_even (Some "US") 30 None None None 1920 1080
           init_world e Hrun).
Defined.

Lemma session_info_reflects_the_reply_witness :
  ∃ info w',
    tool_spawn_browser no_environ created_service counting_clock decimal_of_string
      round_half_even (Some "US") 30 None None None 1920 1080 init_world
    = (Return (SessionInfo info), w') ∧
    dict_get "state" info = Some (JStr "ready") ∧
    dict_get "viewport" info
    = Some (JDict [("width", JInt 1920); ("height", JInt 1080)]) ∧
    is_Some (dict_get "proxy" info).
Proof.
  destruct (tool_spawn_browser no_environ created_service counting_clock
              decimal_of_string round_half_even (Some "US") 30 None None None 1920 1080
              init_world) as [[[info|p]|e] w'] eqn:Hrun;
    [|discriminate Hrun..].
  exists info, w'. split; [reflexivity|].
  destruct (session_info_reflects_the_reply no_environ created_service counting_clock
              decimal_of_string round_half_even (Some "US") 30 None None None 1920 1080
              init_world info w' Hrun)
    as (st & data & Hreply & _ & _ & Hstate & Hviewport & _ & Hproxy).
  split; [exact Hstate|]. split; [exact Hviewport|].
  apply Hproxy. injection Hreply as _ <-. reflexivity.
Defined.

Lemma tool_navigate_reports_the_cache_witness :
  integer_of_string "soon" = None ∧
  tool_navigate no_environ created_service counting_clock integer_of_string "s1"
    "https://example.com" "load" (StrArg "soon") created_world
  = (Raise ValueError, created_world) ∧
  ∃ r w',
    tool_navigate no_environ created_service counting_clock integer_of_string "s1"
      "https://example.com" "load" (StrArg "30000") created_world
    = (Return r, w') ∧
    dict_get "success" r = Some (JBool true) ∧
    ∃ o', objects w' !! 0%nat = Some o' ∧
          dict_get "url" r = Some (current_url o') ∧
          dict_get "title" r = Some (title o').
Proof.
  split; [reflexivity|]. split.
  { apply (tool_navigate_reports_the_cache no_environ created_service counting_clock
             integer_of_string "s1" "https://example.com" "load" (StrArg "soon")
             created_world) with (s := "soon"); reflexivity. }
  destruct (tool_navigate no_environ created_service counting_clock integer_of_string
              "s1" "https://example.com" "load" (StrArg "30000") created_world)
    as [[r|e] w'] eqn:Hrun; [|discriminate Hrun].
  exists r, w'. split; [reflexivity|].
  destruct (tool_navigate_reports_the_cache no_environ created_service counting_clock
              integer_of_string "s1" "https://example.com" "load" (StrArg "30000")
              created_world) as (_ & _ & Hreturns).
  destruct (Hreturns r w' Hrun) as (s & Hs & Hsuccess & Hcache).
  split; [exact Hsuccess|].
  injection Hs as <-.
  exact (Hcache _ eq_refl).
Defined.
